(** * packer-plugin-hcloud: the builder configuration and its build pipeline

    A shallow embedding of [builder/hcloud/config.go] ([Config.Prepare],
    [getServerIP]) together with the properties the design document states
    about it.  Go values are embedded as follows:

    - [string] is [string], the empty string is the zero value;
    - [time.Duration] is an [int64] count of nanoseconds, here a [Z];
    - a pointer that is only tested against [nil] is an [option];
    - a slice that is only measured with [len] or returned as [nil] is a
      [list] (an [option (list _)] where [nil] itself is returned);
    - [map[string]string] is a [gmap string string];
    - the receiver [c *Config] is mutated in place: the embedding threads the
      configuration through and hands back the final one;
    - the process-wide [packersdk.LogSecretFilter] is a [gset string] handed
      in and back;
    - a Go [panic] is an outcome of its own. *)

From Stdlib Require Import ZArith NArith List Lia.
From Equations Require Import Equations.
From stdpp Require Import base option gmap strings list.

Import ListNotations.
Set Warnings "-register-all".
Open Scope string_scope.
Open Scope list_scope.

(** ** Errors *)

(** An [error] value.  [errors.New] and [fmt.Errorf] build a message;
    [*packersdk.MultiError] carries the slice [Errors]. *)
Inductive error : Type :=
| errors_New (msg : string)
| MultiError (Errors : list error).

(** [packersdk.MultiErrorAppend(err, errs...)] for [err] of type
    [*MultiError]: a nil [err] is replaced by a fresh [MultiError], the new
    errors are appended to [err.Errors] in order.  The accumulator is the
    content of [Errors], [None] is the nil pointer. *)
Definition MultiErrorAppend (err : option (list error)) (errs : list error)
  : option (list error) :=
  Some (default [] err ++ errs).

(** What a call of a Go function with results [(A, error)] ends in: its two
    results, [None] for a [nil] error, or a panic with its value. *)
Inductive outcome (A : Type) : Type :=
| Return (v : A) (err : option error)
| Panic (v : error).
Arguments Return {A} v err.
Arguments Panic {A} v.

(** ** The configuration record (config.go, lines 26-69) *)

Record imageFilter : Type := {
  WithSelector : list string;
  MostRecent : bool
}.

Section Model.

(** Types of the plugin SDK that [Config] embeds and never inspects. *)
Context {common_PackerConfig communicator_Config interpolate_Context : Type}.
(** The raw configuration values handed to [Prepare]. *)
Context {Raw : Type}.

Record Config : Type := {
  PackerConfig : common_PackerConfig;
  Comm : communicator_Config;
  HCloudToken : string;
  Endpoint : string;
  PollInterval : Z;
  ServerName : string;
  Location : string;
  ServerType : string;
  ServerLabels : gmap string string;
  UpgradeServerType : string;
  Image : string;
  ImageFilter : option imageFilter;
  SnapshotName : string;
  SnapshotLabels : gmap string string;
  UserData : string;
  UserDataFile : string;
  SSHKeys : list string;
  SSHKeysLabels : gmap string string;
  Networks : list Z;
  PublicIPv4 : string;
  PublicIPv4Disabled : bool;
  PublicIPv6 : string;
  PublicIPv6Disabled : bool;
  Firewalls : list string;
  Volumes : list string;
  RescueMode : string;
  KeepServer : bool;
  SkipSnapshot : bool;
  ctx : interpolate_Context
}.

(** In-place assignments to the fields [Prepare] writes. *)
Definition with_token_endpoint_interval (tok ep : string) (pi : Z) (c : Config)
  : Config :=
  {| PackerConfig := PackerConfig c; Comm := Comm c;
     HCloudToken := tok; Endpoint := ep; PollInterval := pi;
     ServerName := ServerName c; Location := Location c;
     ServerType := ServerType c; ServerLabels := ServerLabels c;
     UpgradeServerType := UpgradeServerType c; Image := Image c;
     ImageFilter := ImageFilter c; SnapshotName := SnapshotName c;
     SnapshotLabels := SnapshotLabels c; UserData := UserData c;
     UserDataFile := UserDataFile c; SSHKeys := SSHKeys c;
     SSHKeysLabels := SSHKeysLabels c; Networks := Networks c;
     PublicIPv4 := PublicIPv4 c; PublicIPv4Disabled := PublicIPv4Disabled c;
     PublicIPv6 := PublicIPv6 c; PublicIPv6Disabled := PublicIPv6Disabled c;
     Firewalls := Firewalls c; Volumes := Volumes c;
     RescueMode := RescueMode c; KeepServer := KeepServer c;
     SkipSnapshot := SkipSnapshot c; ctx := ctx c |}.

Definition set_HCloudToken (v : string) (c : Config) : Config :=
  with_token_endpoint_interval v (Endpoint c) (PollInterval c) c.
Definition set_Endpoint (v : string) (c : Config) : Config :=
  with_token_endpoint_interval (HCloudToken c) v (PollInterval c) c.
Definition set_PollInterval (v : Z) (c : Config) : Config :=
  with_token_endpoint_interval (HCloudToken c) (Endpoint c) v c.

Definition with_names_comm (sn snap : string) (cm : communicator_Config)
    (cx : interpolate_Context) (c : Config) : Config :=
  {| PackerConfig := PackerConfig c; Comm := cm;
     HCloudToken := HCloudToken c; Endpoint := Endpoint c;
     PollInterval := PollInterval c;
     ServerName := sn; Location := Location c;
     ServerType := ServerType c; ServerLabels := ServerLabels c;
     UpgradeServerType := UpgradeServerType c; Image := Image c;
     ImageFilter := ImageFilter c; SnapshotName := snap;
     SnapshotLabels := SnapshotLabels c; UserData := UserData c;
     UserDataFile := UserDataFile c; SSHKeys := SSHKeys c;
     SSHKeysLabels := SSHKeysLabels c; Networks := Networks c;
     PublicIPv4 := PublicIPv4 c; PublicIPv4Disabled := PublicIPv4Disabled c;
     PublicIPv6 := PublicIPv6 c; PublicIPv6Disabled := PublicIPv6Disabled c;
     Firewalls := Firewalls c; Volumes := Volumes c;
     RescueMode := RescueMode c; KeepServer := KeepServer c;
     SkipSnapshot := SkipSnapshot c; ctx := cx |}.

Definition set_SnapshotName (v : string) (c : Config) : Config :=
  with_names_comm (ServerName c) v (Comm c) (ctx c) c.
Definition set_ServerName (v : string) (c : Config) : Config :=
  with_names_comm v (SnapshotName c) (Comm c) (ctx c) c.
Definition set_Comm (cm : communicator_Config) (cx : interpolate_Context)
    (c : Config) : Config :=
  with_names_comm (ServerName c) (SnapshotName c) cm cx c.

(** ** What [Prepare] calls outside this package

    Each field stands for one call of the SDK, of the Go library or of the
    operating system, with the result that call gives during this run. *)
Record World : Type := {
  (** [config.Decode(c, opts, raws...)]: the decoded configuration and the
      error, [None] for [nil]. *)
  Decode : Config -> list Raw -> Config * option error;
  (** [os.Getenv]. *)
  Getenv : string -> string;
  (** The constant [hcloud.Endpoint] of hcloud-go. *)
  hcloud_Endpoint : string;
  (** [interpolate.Render(tmpl, nil)]: the rendered text and the error. *)
  Render : string -> string * option error;
  (** [uuid.TimeOrderedUUID()]. *)
  TimeOrderedUUID : string;
  (** [c.Comm.Prepare(&c.ctx)]: both are passed by pointer, so the call
      returns them next to its slice of errors. *)
  Comm_Prepare : communicator_Config -> interpolate_Context ->
                 communicator_Config * interpolate_Context * list error;
  (** The error result of [os.Stat(path)], [None] for [nil]. *)
  Stat : string -> option error
}.

(** [time.Millisecond], in nanoseconds. *)
Definition time_Millisecond : Z := 1000000.

(** [fmt.Sprintf] with one [%s] verb after a literal prefix. *)
Definition Sprintf_s (prefix arg : string) : string := prefix +:+ arg.

(** [packersdk.LogSecretFilter.Set(s)]: [s] joins the set of secrets. *)
Definition LogSecretFilter_Set (s : string) (secrets : gset string)
  : gset string :=
  {[ s ]} ∪ secrets.

(** A call of [Prepare]: the receiver and the secret filter after the
    call, and the results [([]string, error)]; a [nil] slice is [None]. *)
Record result : Type := {
  cfg : Config;
  secrets : gset string;
  out : outcome (option (list string))
}.

(** *** [Prepare], lines 87-114: defaults

    The result is the configuration as far as it was filled in, and the
    value the function panics with when the rendering of the default
    snapshot name fails ([None] when the block runs to its end). *)
Definition defaults (w : World) (c : Config) : Config * option error :=
  let c := if decide (HCloudToken c = "")
           then set_HCloudToken (Getenv w "HCLOUD_TOKEN") c else c in
  let c := if decide (Endpoint c = "")
           then if decide (Getenv w "HCLOUD_ENDPOINT" ≠ "")
                then set_Endpoint (Getenv w "HCLOUD_ENDPOINT") c
                else set_Endpoint (hcloud_Endpoint w) c
           else c in
  let c := if decide (PollInterval c = 0%Z)
           then set_PollInterval (500 * time_Millisecond)%Z c else c in
  let '(c, panicked) :=
    if decide (SnapshotName c = "")
    then let '(def, err) := Render w "packer-{{timestamp}}" in
         match err with
         | Some e => (c, Some e)
         | None => (set_SnapshotName def c, None)
         end
    else (c, None) in
  match panicked with
  | Some e => (c, Some e)
  | None =>
      (if decide (ServerName c = "")
       then set_ServerName (Sprintf_s "packer-" (TimeOrderedUUID w)) c
       else c, None)
  end.

(** *** [Prepare], lines 116-158: the checks

    Each block takes the accumulated [errs] and gives it back, as the
    assignments [errs = packersdk.MultiErrorAppend(errs, ...)] do. *)

(* lines 117-119 *)
Definition check_comm (es : list error) (errs : option (list error))
  : option (list error) :=
  if decide (0 < length es) then MultiErrorAppend errs es else errs.

(* lines 120-124 *)
Definition check_token (c : Config) (errs : option (list error))
  : option (list error) :=
  if decide (HCloudToken c = "")
  then MultiErrorAppend errs
         [errors_New "token is missing, make sure to configure your Hetzner Cloud token"]
  else errs.

(* lines 126-129 *)
Definition check_location (c : Config) (errs : option (list error))
  : option (list error) :=
  if decide (Location c = "")
  then MultiErrorAppend errs [errors_New "location is required"]
  else errs.

(* lines 131-134 *)
Definition check_server_type (c : Config) (errs : option (list error))
  : option (list error) :=
  if decide (ServerType c = "")
  then MultiErrorAppend errs [errors_New "server type is required"]
  else errs.

(* lines 136-148 *)
Definition check_image (c : Config) (errs : option (list error))
  : option (list error) :=
  let errs :=
    if decide (Image c = "" ∧ ImageFilter c = None)
    then MultiErrorAppend errs [errors_New "image or image_filter is required"]
    else errs in
  match ImageFilter c with
  | Some f =>
      if decide (length (WithSelector f) = 0)
      then MultiErrorAppend errs
             [errors_New "image_filter.with_selector is required when specifying filter"]
      else if decide (Image c ≠ "")
      then MultiErrorAppend errs
             [errors_New "only one of image or image_filter can be specified"]
      else errs
  | None => errs
  end.

(* lines 150-158 *)
Definition check_user_data (w : World) (c : Config) (errs : option (list error))
  : option (list error) :=
  if decide (UserData c ≠ "" ∧ UserDataFile c ≠ "")
  then MultiErrorAppend errs
         [errors_New "only one of user_data or user_data_file can be specified"]
  else if decide (UserDataFile c ≠ "")
  then match Stat w (UserDataFile c) with
       | Some _ =>
           MultiErrorAppend errs
             [errors_New (Sprintf_s "user_data_file not found: " (UserDataFile c))]
       | None => errs
       end
  else errs.

(** Lines 116-158 in sequence, from [var errs *packersdk.MultiError]. *)
Definition checks (w : World) (es : list error) (c : Config)
  : option (list error) :=
  let errs := None in
  let errs := check_comm es errs in
  let errs := check_token c errs in
  let errs := check_location c errs in
  let errs := check_server_type c errs in
  let errs := check_image c errs in
  check_user_data w c errs.

(** *** [func (c *Config) Prepare(raws ...interface{}) ([]string, error)] *)
Definition Prepare (w : World) (c : Config) (filter : gset string)
    (raws : list Raw) : result :=
  let '(c, err) := Decode w c raws in
  match err with
  | Some e => {| cfg := c; secrets := filter; out := Return None (Some e) |}
  | None =>
      match defaults w c with
      | (c, Some e) => {| cfg := c; secrets := filter; out := Panic e |}
      | (c, None) =>
          let '(cm, cx, es) := Comm_Prepare w (Comm c) (ctx c) in
          let c := set_Comm cm cx c in
          match checks w es c with
          | Some ((_ :: _) as errors) =>
              {| cfg := c; secrets := filter;
                 out := Return None (Some (MultiError errors)) |}
          | _ =>
              {| cfg := c;
                 secrets := LogSecretFilter_Set (HCloudToken c) filter;
                 out := Return None None |}
          end
      end
  end.

End Model.

Arguments World : clear implicits.
Arguments result : clear implicits.

(** ** The state bag and [getServerIP] (config.go, lines 168-170) *)

(** A value stored in the state bag, an [interface{}] with its dynamic
    type. *)
Inductive any : Type :=
| any_string (s : string)
| any_bool (b : bool)
| any_int (n : Z)
| any_error (e : error).

(** [multistep.StateBag.Get(k)] has a single result of type [interface{}]:
    the stored value, and the nil interface, here [None], for a key that was
    never put. *)
Definition Get (state : gmap string any) (k : string) : option any :=
  state !! k.

(** [multistep.StateBag.Put(k, v)]. *)
Definition Put (k : string) (v : any) (state : gmap string any)
  : gmap string any :=
  <[ k := v ]> state.

Section ServerIP.

(** The key constant [StateServerIP]; its declaration is in another file
    of the package. *)
Variable StateServerIP : string.

(** [return state.Get(StateServerIP).(string), nil]: the type assertion has
    the one-result form, which panics on any other dynamic type and on the
    nil interface. *)
Definition getServerIP (state : gmap string any) : outcome string :=
  match Get state StateServerIP with
  | Some (any_string ip) => Return ip None
  | _ => Panic (errors_New "interface conversion: interface {} is not string")
  end.

End ServerIP.

(** ** The build pipeline

    The Steps, the Runner that drives them and the orchestrator of
    [builder.go], after the design document. *)

Module Pipeline.

(** Modelled from the spec: the result of a Step's [run] (section 4.2),
    [Continue] to let the Runner proceed, [Halt] to stop the pipeline.  The
    Step implementations are missing. *)
Inductive Action : Type := Continue | Halt.

(** Modelled from the spec: the Step contract of section 4.2, which the
    missing step files implement.  [run] reads and writes the Shared Build
    State and answers with an [Action]; [cleanup] is the best-effort
    compensation, whose own failure is an error handed to the Runner. *)
Class Step (S : Type) : Type := {
  run : S -> gmap string any -> Action * gmap string any;
  cleanup : S -> gmap string any -> gmap string any * option error
}.

(** What the Runner did, in the order it did it. *)
Inductive event (S : Type) : Type :=
| RunEv (s : S)
| CleanupEv (s : S).
Arguments RunEv {S} s.
Arguments CleanupEv {S} s.

Section Runner.
Context {S : Type} `{Step S}.

(** Modelled from the spec: the forward pass of the Pipeline Runner
    (section 4.4), whose code is missing: "Executes Steps strictly in
    order.  After each run, if the result is Halt, the Runner stops
    forward progress immediately".  [executed] holds the Steps whose
    [run] already executed, the latest first.  The results are the
    events, the executed Steps, the state and whether a Step halted. *)
Fixpoint forward (steps : list S) (state : gmap string any)
    (executed : list S)
  : list (event S) * list S * gmap string any * bool :=
  match steps with
  | [] => ([], executed, state, false)
  | s :: rest =>
      let '(action, state) := run s state in
      match action with
      | Halt => ([RunEv s], s :: executed, state, true)
      | Continue =>
          let '(evs, executed, state, halted) :=
            forward rest state (s :: executed) in
          (RunEv s :: evs, executed, state, halted)
      end
  end.

(** Modelled from the spec: the unwind pass of the missing Runner
    (section 4.4): [cleanup] "over every Step that already executed run
    (including the one that halted)", in reverse execution order; "a
    failing cleanup is recorded as a secondary error but does not stop
    cleanup of earlier Steps". *)
Fixpoint unwind (executed : list S) (state : gmap string any)
  : list (event S) * gmap string any * list error :=
  match executed with
  | [] => ([], state, [])
  | s :: earlier =>
      let '(state, failure) := cleanup s state in
      let '(evs, state, secondary) := unwind earlier state in
      (CleanupEv s :: evs, state,
       match failure with
       | Some e => e :: secondary
       | None => secondary
       end)
  end.

Record Build : Type := {
  trace : list (event S);
  final : gmap string any;
  halted : bool;
  secondary_errors : list error
}.

(** Modelled from the spec: the missing Runner as a whole (section 2,
    control flow): the forward pass, then the unwind pass over what was
    executed. *)
Definition Runner (steps : list S) (state : gmap string any) : Build :=
  let '(evs, executed, state, halted) := forward steps state [] in
  let '(cevs, state, secondary) := unwind executed state in
  {| trace := evs ++ cevs; final := state; halted := halted;
     secondary_errors := secondary |}.

(** The position, counted from 1, of the first Step whose [run] answers
    [Halt] when the Steps run in order from [state]. *)
Fixpoint halts_at (steps : list S) (state : gmap string any) : option nat :=
  match steps with
  | [] => None
  | s :: rest =>
      match run s state with
      | (Halt, _) => Some 1
      | (Continue, state) => Nat.succ <$> halts_at rest state
      end
  end.

(** The number of Steps whose [run] executes: up to the first Halt, or all
    of them. *)
Definition ran (steps : list S) (state : gmap string any) : nat :=
  default (length steps) (halts_at steps state).

End Runner.

(** Modelled from the spec: the Step variants of the canonical step
    sequence (section 4.2, items 1 to 9); their files are missing.  Item
    10, Cleanup, is the unwind pass of the Runner. *)
Inductive StepName : Type :=
| GenerateOrImportKeypair
| ResolveImage
| CreateServer
| PollUntilRunning
| OptionalRescueBoot
| WaitForConnectivity
| Provisioning
| PowerOffServer
| CreateSnapshot.

Section Orchestrator.
Context {common_PackerConfig communicator_Config interpolate_Context : Type}.
Context `{Step StepName}.

(** The key under which CreateSnapshot stores the Resulting Image
    identifier. *)
Variable StateImageID : string.

(** Modelled from the spec: the Build Orchestrator of the missing
    [builder.go] "assembles the step sequence from configuration"
    (section 2); with the skip-snapshot flag "CreateSnapshot is never
    invoked" (section 8), so the flag leaves the Step out. *)
Definition assemble
    (c : @Config common_PackerConfig communicator_Config interpolate_Context)
  : list StepName :=
  [GenerateOrImportKeypair; ResolveImage; CreateServer; PollUntilRunning;
   OptionalRescueBoot; WaitForConnectivity; Provisioning; PowerOffServer]
  ++ (if SkipSnapshot c then [] else [CreateSnapshot]).

(** Modelled from the spec: the missing orchestrator "drives the Runner"
    on a Shared Build State "created at build start" (sections 2, 3). *)
Definition Orchestrate
    (c : @Config common_PackerConfig communicator_Config interpolate_Context)
  : Build :=
  Runner (assemble c) ∅.

(** Modelled from the spec: the missing orchestrator "extracts the final
    artifact (image identifier) from Shared Build State" (section 2); the
    identifier is empty when no Step stored one (section 6). *)
Definition image_identifier (state : gmap string any) : string :=
  match state !! StateImageID with
  | Some (any_string id) => id
  | _ => ""
  end.

End Orchestrator.

End Pipeline.

(** ** Polling *)

Module Polling.

(** Modelled from the spec: what a status query of an Action/Operation
    Handle answers (section 4.3): the terminal states [succeeded] and
    [failed], any other state is in progress.  The polling code of the
    steps is missing. *)
Inductive Status : Type :=
| in_progress
| succeeded
| failed (msg : string).

(** Modelled from the spec: how polling ends (sections 4.3 and 7), for the
    missing polling code. *)
Inductive PollEnd : Type :=
| Proceed
| ActionFailedError (msg : string)
| PollTimeoutError.

Record PollResult : Type := {
  ending : PollEnd;
  elapsed : N       (* time since polling began, in the unit of the interval *)
}.

(** Modelled from the spec: the polling algorithm of section 4.3, whose
    code is missing.  "Repeatedly query its status at the configured
    interval"; a terminal state ends polling; any other state "causes
    another wait-and-query cycle"; "the caller supplies a deadline after
    which polling halts with PollTimeoutError regardless of
    provider-reported progress".  [responses k] is the answer to the query
    number [k], [now] the time since polling began.  A wait that would end
    after the deadline is cut at the deadline. *)
Equations? poll_loop (interval : positive) (deadline : N)
    (responses : nat -> Status) (k : nat) (now : N)
  : PollResult by wf (N.to_nat (deadline - now)) lt :=
  poll_loop interval deadline responses k now with responses k => {
    | succeeded => {| ending := Proceed; elapsed := now |}
    | failed msg => {| ending := ActionFailedError msg; elapsed := now |}
    | in_progress with decide (now + Npos interval ≤ deadline)%N => {
        | left _ =>
            poll_loop interval deadline responses (S k) (now + Npos interval)
        | right _ => {| ending := PollTimeoutError; elapsed := deadline |} } }.
Proof. lia. Qed.

(** Modelled from the spec: polling begins with a query (section 4.3); the
    code is missing. *)
Definition poll (interval : positive) (deadline : N)
    (responses : nat -> Status) : PollResult :=
  poll_loop interval deadline responses 0 0.

(** [n] answers in progress, then [last] for ever. *)
Definition after (n : nat) (last : Status) : nat -> Status :=
  fun k => if decide (k < n) then in_progress else last.

End Polling.

(** ** The Steps that poll *)

Module PollingSteps.


Section Interval.
Context {common_PackerConfig communicator_Config interpolate_Context : Type}.
Implicit Types c : @Config common_PackerConfig communicator_Config interpolate_Context.



End Interval.

End PollingSteps.

(** ** The checks, read off as a list

    What lines 116-158 report, block by block, written without the
    accumulator: the errors of the communicator, then one message for each
    check that fails. *)

Section Reported.
Context {common_PackerConfig communicator_Config interpolate_Context : Type}.
Context {Raw : Type}.
Implicit Types c d : @Config common_PackerConfig communicator_Config interpolate_Context.

(** [errs.Errors], and no error at all for the nil pointer. *)
Definition Errors_of (errs : option (list error)) : list error :=
  default [] errs.

Definition token_errors c : list error :=
  if decide (HCloudToken c = "")
  then [errors_New "token is missing, make sure to configure your Hetzner Cloud token"]
  else [].

Definition location_errors c : list error :=
  if decide (Location c = "") then [errors_New "location is required"] else [].

Definition server_type_errors c : list error :=
  if decide (ServerType c = "") then [errors_New "server type is required"] else [].

Definition image_errors c : list error :=
  match ImageFilter c with
  | None =>
      if decide (Image c = "")
      then [errors_New "image or image_filter is required"] else []
  | Some f =>
      if decide (WithSelector f = [])
      then [errors_New "image_filter.with_selector is required when specifying filter"]
      else if decide (Image c = "") then []
      else [errors_New "only one of image or image_filter can be specified"]
  end.

Definition user_data_errors
    (w : World common_PackerConfig communicator_Config interpolate_Context Raw)
    c : list error :=
  if decide (UserDataFile c = "") then []
  else if decide (UserData c = "")
  then match Stat w (UserDataFile c) with
       | Some _ =>
           [errors_New (Sprintf_s "user_data_file not found: " (UserDataFile c))]
       | None => []
       end
  else [errors_New "only one of user_data or user_data_file can be specified"].

Definition failed_checks
    (w : World common_PackerConfig communicator_Config interpolate_Context Raw)
    (es : list error) c : list error :=
  es ++ token_errors c ++ location_errors c ++ server_type_errors c
     ++ image_errors c ++ user_data_errors w c.

(** The token [Prepare] works with: the configured one, or the environment
    variable [HCLOUD_TOKEN] when none is configured. *)
Definition resolved_token
    (w : World common_PackerConfig communicator_Config interpolate_Context Raw)
    c : string :=
  if decide (HCloudToken c = "") then Getenv w "HCLOUD_TOKEN" else HCloudToken c.

(** The default snapshot name can be rendered, or is not needed: [Prepare]
    does not reach its [panic]. *)
Definition renders
    (w : World common_PackerConfig communicator_Config interpolate_Context Raw)
    c : Prop :=
  SnapshotName c ≠ "" ∨ (Render w "packer-{{timestamp}}").2 = None.

(** A block that appends [added] when [added] is not empty, and leaves the
    accumulator alone otherwise. *)
Definition appends (errs errs' : option (list error)) (added : list error) : Prop :=
  (added = [] ∧ errs' = errs) ∨
  (added ≠ [] ∧ errs' = Some (Errors_of errs ++ added)).

(** The accumulator is nil or holds at least one error. *)
Definition well_formed (errs : option (list error)) : Prop := errs ≠ Some [].

(** What [Prepare] reports for the decoded configuration [d] when the
    communicator reports [es]: the failed checks of [d] with its token
    resolved. *)
Definition reported
    (w : World common_PackerConfig communicator_Config interpolate_Context Raw)
    (es : list error) d : list error :=
  failed_checks w es (set_HCloudToken (resolved_token w d) d).

(** The call returned no warnings and a [MultiError] that holds [e]. *)
Definition reports
    (r : result common_PackerConfig communicator_Config interpolate_Context)
    (e : error) : Prop :=
  exists errors, out r = Return None (Some (MultiError errors)) ∧ e ∈ errors.

(** The call returned [nil, nil]. *)
Definition succeeds
    (r : result common_PackerConfig communicator_Config interpolate_Context)
  : Prop :=
  out r = Return None None.

End Reported.

(** ** Sample runs *)

Module Sample.

(** A configuration with the given settings and the zero value elsewhere. *)
Definition config (tok loc st img : string) (flt : option imageFilter)
    (ud udf : string) (skip : bool) : @Config unit unit unit :=
  {| PackerConfig := tt; Comm := tt; HCloudToken := tok; Endpoint := "";
     PollInterval := 0; ServerName := ""; Location := loc; ServerType := st;
     ServerLabels := ∅; UpgradeServerType := ""; Image := img;
     ImageFilter := flt; SnapshotName := ""; SnapshotLabels := ∅;
     UserData := ud; UserDataFile := udf; SSHKeys := []; SSHKeysLabels := ∅;
     Networks := []; PublicIPv4 := ""; PublicIPv4Disabled := false;
     PublicIPv6 := ""; PublicIPv6Disabled := false; Firewalls := [];
     Volumes := []; RescueMode := ""; KeepServer := false;
     SkipSnapshot := skip; ctx := tt |}.

(** The scenario of the design document: a direct image, no snapshot. *)
Definition cx11 : @Config unit unit unit :=
  config "token-1" "nbg1" "cx11" "ubuntu-22.04" None "" "" true.

(** A world without environment variables, in which the raw value is the
    decoded configuration itself, the communicator has nothing to report and
    [/etc/cloud-init.yml] is the only file. *)
Definition world : World unit unit unit (@Config unit unit unit) :=
  {| Decode := fun c raws => (List.last raws c, None);
     Getenv := fun _ => "";
     hcloud_Endpoint := "https://api.hetzner.cloud/v1";
     Render := fun _ => ("packer-1700000000", None);
     TimeOrderedUUID := "5f0e8c1a-7d2b-11ee-b962-0242ac120002";
     Comm_Prepare := fun cm cx => (cm, cx, []);
     Stat := fun path =>
       if decide (path = "/etc/cloud-init.yml") then None
       else Some (errors_New "no such file or directory") |}.

(** Steps that all continue; CreateSnapshot stores an image identifier. *)
#[local] Instance steps : Pipeline.Step Pipeline.StepName :=
  {| Pipeline.run := fun s state =>
       match s with
       | Pipeline.CreateSnapshot =>
           (Pipeline.Continue, Put "snapshot_id" (any_string "4711") state)
       | _ => (Pipeline.Continue, state)
       end;
     Pipeline.cleanup := fun _ state => (state, None) |}.

(** Three numbered steps, the second of which halts. *)
Definition second_halts : Pipeline.Step nat :=
  {| Pipeline.run := fun s state =>
       (if decide (s = 2) then Pipeline.Halt else Pipeline.Continue,
        Put "last" (any_int (Z.of_nat s)) state);
     Pipeline.cleanup := fun _ state => (state, None) |}.

End Sample.


(** ** The generated HCL2 specification (config.hcl2spec.go) *)

(** The types of [cty] the specification uses. *)
Inductive cty_Type : Type :=
| cty_String
| cty_Bool
| cty_Number
| cty_List (elem : cty_Type)
| cty_Map (elem : cty_Type).

(** An [hcldec.Spec]: [&hcldec.AttrSpec{Name, Type, Required}],
    [&hcldec.BlockSpec{TypeName, Nested}], and [hcldec.ObjectSpec], which is
    a [map[string]hcldec.Spec]. *)
Inductive Spec : Type :=
| AttrSpec (Name : string) (Type_ : cty_Type) (Required : bool)
| BlockSpec (TypeName : string) (Nested : Spec)
| ObjectSpec (attrs : gmap string Spec).

(** The Go types of the fields of the flat structures. *)
Inductive flat_type : Type :=
| ptr_string              (* *string *)
| ptr_bool                (* *bool *)
| ptr_int                 (* *int *)
| slice_string            (* []string *)
| slice_byte              (* []byte *)
| slice_int64             (* []int64 *)
| map_string_string       (* map[string]string *)
| ptr_FlatimageFilter.    (* *FlatimageFilter *)

(** A field of a struct with its [mapstructure] tag. *)
Record field : Type := {
  field_name : string;
  field_type : flat_type;
  mapstructure : string
}.

(** [type FlatimageFilter struct], lines 197-200. *)
Definition FlatimageFilter_fields : list field :=
  [ {| field_name := "WithSelector"; field_type := slice_string;
       mapstructure := "with_selector" |};
    {| field_name := "MostRecent"; field_type := ptr_bool;
       mapstructure := "most_recent" |} ].

(** [FlatimageFilter.HCL2Spec], lines 212-218: the entries of the
    map literal. *)
Definition FlatimageFilter_HCL2Spec_entries : list (string * Spec) :=
  [ ("with_selector", AttrSpec "with_selector" (cty_List cty_String) false);
    ("most_recent", AttrSpec "most_recent" cty_Bool false) ].

Definition FlatimageFilter_HCL2Spec : gmap string Spec :=
  list_to_map FlatimageFilter_HCL2Spec_entries.

(** [type FlatConfig struct], lines 12-95. *)
Definition FlatConfig_fields : list field :=
  [ {| field_name := "PackerBuildName"; field_type := ptr_string;
       mapstructure := "packer_build_name" |};
    {| field_name := "PackerBuilderType"; field_type := ptr_string;
       mapstructure := "packer_builder_type" |};
    {| field_name := "PackerCoreVersion"; field_type := ptr_string;
       mapstructure := "packer_core_version" |};
    {| field_name := "PackerDebug"; field_type := ptr_bool;
       mapstructure := "packer_debug" |};
    {| field_name := "PackerForce"; field_type := ptr_bool;
       mapstructure := "packer_force" |};
    {| field_name := "PackerOnError"; field_type := ptr_string;
       mapstructure := "packer_on_error" |};
    {| field_name := "PackerUserVars"; field_type := map_string_string;
       mapstructure := "packer_user_variables" |};
    {| field_name := "PackerSensitiveVars"; field_type := slice_string;
       mapstructure := "packer_sensitive_variables" |};
    {| field_name := "Type"; field_type := ptr_string;
       mapstructure := "communicator" |};
    {| field_name := "PauseBeforeConnect"; field_type := ptr_string;
       mapstructure := "pause_before_connecting" |};
    {| field_name := "SSHHost"; field_type := ptr_string;
       mapstructure := "ssh_host" |};
    {| field_name := "SSHPort"; field_type := ptr_int;
       mapstructure := "ssh_port" |};
    {| field_name := "SSHUsername"; field_type := ptr_string;
       mapstructure := "ssh_username" |};
    {| field_name := "SSHPassword"; field_type := ptr_string;
       mapstructure := "ssh_password" |};
    {| field_name := "SSHKeyPairName"; field_type := ptr_string;
       mapstructure := "ssh_keypair_name" |};
    {| field_name := "SSHTemporaryKeyPairName"; field_type := ptr_string;
       mapstructure := "temporary_key_pair_name" |};
    {| field_name := "SSHTemporaryKeyPairType"; field_type := ptr_string;
       mapstructure := "temporary_key_pair_type" |};
    {| field_name := "SSHTemporaryKeyPairBits"; field_type := ptr_int;
       mapstructure := "temporary_key_pair_bits" |};
    {| field_name := "SSHCiphers"; field_type := slice_string;
       mapstructure := "ssh_ciphers" |};
    {| field_name := "SSHClearAuthorizedKeys"; field_type := ptr_bool;
       mapstructure := "ssh_clear_authorized_keys" |};
    {| field_name := "SSHKEXAlgos"; field_type := slice_string;
       mapstructure := "ssh_key_exchange_algorithms" |};
    {| field_name := "SSHPrivateKeyFile"; field_type := ptr_string;
       mapstructure := "ssh_private_key_file" |};
    {| field_name := "SSHCertificateFile"; field_type := ptr_string;
       mapstructure := "ssh_certificate_file" |};
    {| field_name := "SSHPty"; field_type := ptr_bool;
       mapstructure := "ssh_pty" |};
    {| field_name := "SSHTimeout"; field_type := ptr_string;
       mapstructure := "ssh_timeout" |};
    {| field_name := "SSHWaitTimeout"; field_type := ptr_string;
       mapstructure := "ssh_wait_timeout" |};
    {| field_name := "SSHAgentAuth"; field_type := ptr_bool;
       mapstructure := "ssh_agent_auth" |};
    {| field_name := "SSHDisableAgentForwarding"; field_type := ptr_bool;
       mapstructure := "ssh_disable_agent_forwarding" |};
    {| field_name := "SSHHandshakeAttempts"; field_type := ptr_int;
       mapstructure := "ssh_handshake_attempts" |};
    {| field_name := "SSHBastionHost"; field_type := ptr_string;
       mapstructure := "ssh_bastion_host" |};
    {| field_name := "SSHBastionPort"; field_type := ptr_int;
       mapstructure := "ssh_bastion_port" |};
    {| field_name := "SSHBastionAgentAuth"; field_type := ptr_bool;
       mapstructure := "ssh_bastion_agent_auth" |};
    {| field_name := "SSHBastionUsername"; field_type := ptr_string;
       mapstructure := "ssh_bastion_username" |};
    {| field_name := "SSHBastionPassword"; field_type := ptr_string;
       mapstructure := "ssh_bastion_password" |};
    {| field_name := "SSHBastionInteractive"; field_type := ptr_bool;
       mapstructure := "ssh_bastion_interactive" |};
    {| field_name := "SSHBastionPrivateKeyFile"; field_type := ptr_string;
       mapstructure := "ssh_bastion_private_key_file" |};
    {| field_name := "SSHBastionCertificateFile"; field_type := ptr_string;
       mapstructure := "ssh_bastion_certificate_file" |};
    {| field_name := "SSHFileTransferMethod"; field_type := ptr_string;
       mapstructure := "ssh_file_transfer_method" |};
    {| field_name := "SSHProxyHost"; field_type := ptr_string;
       mapstructure := "ssh_proxy_host" |};
    {| field_name := "SSHProxyPort"; field_type := ptr_int;
       mapstructure := "ssh_proxy_port" |};
    {| field_name := "SSHProxyUsername"; field_type := ptr_string;
       mapstructure := "ssh_proxy_username" |};
    {| field_name := "SSHProxyPassword"; field_type := ptr_string;
       mapstructure := "ssh_proxy_password" |};
    {| field_name := "SSHKeepAliveInterval"; field_type := ptr_string;
       mapstructure := "ssh_keep_alive_interval" |};
    {| field_name := "SSHReadWriteTimeout"; field_type := ptr_string;
       mapstructure := "ssh_read_write_timeout" |};
    {| field_name := "SSHRemoteTunnels"; field_type := slice_string;
       mapstructure := "ssh_remote_tunnels" |};
    {| field_name := "SSHLocalTunnels"; field_type := slice_string;
       mapstructure := "ssh_local_tunnels" |};
    {| field_name := "SSHPublicKey"; field_type := slice_byte;
       mapstructure := "ssh_public_key" |};
    {| field_name := "SSHPrivateKey"; field_type := slice_byte;
       mapstructure := "ssh_private_key" |};
    {| field_name := "WinRMUser"; field_type := ptr_string;
       mapstructure := "winrm_username" |};
    {| field_name := "WinRMPassword"; field_type := ptr_string;
       mapstructure := "winrm_password" |};
    {| field_name := "WinRMHost"; field_type := ptr_string;
       mapstructure := "winrm_host" |};
    {| field_name := "WinRMNoProxy"; field_type := ptr_bool;
       mapstructure := "winrm_no_proxy" |};
    {| field_name := "WinRMPort"; field_type := ptr_int;
       mapstructure := "winrm_port" |};
    {| field_name := "WinRMTimeout"; field_type := ptr_string;
       mapstructure := "winrm_timeout" |};
    {| field_name := "WinRMUseSSL"; field_type := ptr_bool;
       mapstructure := "winrm_use_ssl" |};
    {| field_name := "WinRMInsecure"; field_type := ptr_bool;
       mapstructure := "winrm_insecure" |};
    {| field_name := "WinRMUseNTLM"; field_type := ptr_bool;
       mapstructure := "winrm_use_ntlm" |};
    {| field_name := "HCloudToken"; field_type := ptr_string;
       mapstructure := "token" |};
    {| field_name := "Endpoint"; field_type := ptr_string;
       mapstructure := "endpoint" |};
    {| field_name := "PollInterval"; field_type := ptr_string;
       mapstructure := "poll_interval" |};
    {| field_name := "ServerName"; field_type := ptr_string;
       mapstructure := "server_name" |};
    {| field_name := "Location"; field_type := ptr_string;
       mapstructure := "location" |};
    {| field_name := "ServerType"; field_type := ptr_string;
       mapstructure := "server_type" |};
    {| field_name := "ServerLabels"; field_type := map_string_string;
       mapstructure := "server_labels" |};
    {| field_name := "UpgradeServerType"; field_type := ptr_string;
       mapstructure := "upgrade_server_type" |};
    {| field_name := "Image"; field_type := ptr_string;
       mapstructure := "image" |};
    {| field_name := "ImageFilter"; field_type := ptr_FlatimageFilter;
       mapstructure := "image_filter" |};
    {| field_name := "SnapshotName"; field_type := ptr_string;
       mapstructure := "snapshot_name" |};
    {| field_name := "SnapshotLabels"; field_type := map_string_string;
       mapstructure := "snapshot_labels" |};
    {| field_name := "UserData"; field_type := ptr_string;
       mapstructure := "user_data" |};
    {| field_name := "UserDataFile"; field_type := ptr_string;
       mapstructure := "user_data_file" |};
    {| field_name := "SSHKeys"; field_type := slice_string;
       mapstructure := "ssh_keys" |};
    {| field_name := "SSHKeysLabels"; field_type := map_string_string;
       mapstructure := "ssh_keys_labels" |};
    {| field_name := "Networks"; field_type := slice_int64;
       mapstructure := "networks" |};
    {| field_name := "PublicIPv4"; field_type := ptr_string;
       mapstructure := "public_ipv4" |};
    {| field_name := "PublicIPv4Disabled"; field_type := ptr_bool;
       mapstructure := "public_ipv4_disabled" |};
    {| field_name := "PublicIPv6"; field_type := ptr_string;
       mapstructure := "public_ipv6" |};
    {| field_name := "PublicIPv6Disabled"; field_type := ptr_bool;
       mapstructure := "public_ipv6_disabled" |};
    {| field_name := "Firewalls"; field_type := slice_string;
       mapstructure := "firewalls" |};
    {| field_name := "RescueMode"; field_type := ptr_string;
       mapstructure := "rescue" |};
    {| field_name := "KeepServer"; field_type := ptr_bool;
       mapstructure := "keep_server" |};
    {| field_name := "SkipSnapshot"; field_type := ptr_bool;
       mapstructure := "skip_snapshot" |} ].

(** [FlatConfig.HCL2Spec], lines 107-193: the entries of the map
    literal. *)
Definition FlatConfig_HCL2Spec_entries : list (string * Spec) :=
  [ ("packer_build_name",
     AttrSpec "packer_build_name" cty_String false);
    ("packer_builder_type",
     AttrSpec "packer_builder_type" cty_String false);
    ("packer_core_version",
     AttrSpec "packer_core_version" cty_String false);
    ("packer_debug",
     AttrSpec "packer_debug" cty_Bool false);
    ("packer_force",
     AttrSpec "packer_force" cty_Bool false);
    ("packer_on_error",
     AttrSpec "packer_on_error" cty_String false);
    ("packer_user_variables",
     AttrSpec "packer_user_variables" (cty_Map cty_String) false);
    ("packer_sensitive_variables",
     AttrSpec "packer_sensitive_variables" (cty_List cty_String) false);
    ("communicator",
     AttrSpec "communicator" cty_String false);
    ("pause_before_connecting",
     AttrSpec "pause_before_connecting" cty_String false);
    ("ssh_host",
     AttrSpec "ssh_host" cty_String false);
    ("ssh_port",
     AttrSpec "ssh_port" cty_Number false);
    ("ssh_username",
     AttrSpec "ssh_username" cty_String false);
    ("ssh_password",
     AttrSpec "ssh_password" cty_String false);
    ("ssh_keypair_name",
     AttrSpec "ssh_keypair_name" cty_String false);
    ("temporary_key_pair_name",
     AttrSpec "temporary_key_pair_name" cty_String false);
    ("temporary_key_pair_type",
     AttrSpec "temporary_key_pair_type" cty_String false);
    ("temporary_key_pair_bits",
     AttrSpec "temporary_key_pair_bits" cty_Number false);
    ("ssh_ciphers",
     AttrSpec "ssh_ciphers" (cty_List cty_String) false);
    ("ssh_clear_authorized_keys",
     AttrSpec "ssh_clear_authorized_keys" cty_Bool false);
    ("ssh_key_exchange_algorithms",
     AttrSpec "ssh_key_exchange_algorithms" (cty_List cty_String) false);
    ("ssh_private_key_file",
     AttrSpec "ssh_private_key_file" cty_String false);
    ("ssh_certificate_file",
     AttrSpec "ssh_certificate_file" cty_String false);
    ("ssh_pty",
     AttrSpec "ssh_pty" cty_Bool false);
    ("ssh_timeout",
     AttrSpec "ssh_timeout" cty_String false);
    ("ssh_wait_timeout",
     AttrSpec "ssh_wait_timeout" cty_String false);
    ("ssh_agent_auth",
     AttrSpec "ssh_agent_auth" cty_Bool false);
    ("ssh_disable_agent_forwarding",
     AttrSpec "ssh_disable_agent_forwarding" cty_Bool false);
    ("ssh_handshake_attempts",
     AttrSpec "ssh_handshake_attempts" cty_Number false);
    ("ssh_bastion_host",
     AttrSpec "ssh_bastion_host" cty_String false);
    ("ssh_bastion_port",
     AttrSpec "ssh_bastion_port" cty_Number false);
    ("ssh_bastion_agent_auth",
     AttrSpec "ssh_bastion_agent_auth" cty_Bool false);
    ("ssh_bastion_username",
     AttrSpec "ssh_bastion_username" cty_String false);
    ("ssh_bastion_password",
     AttrSpec "ssh_bastion_password" cty_String false);
    ("ssh_bastion_interactive",
     AttrSpec "ssh_bastion_interactive" cty_Bool false);
    ("ssh_bastion_private_key_file",
     AttrSpec "ssh_bastion_private_key_file" cty_String false);
    ("ssh_bastion_certificate_file",
     AttrSpec "ssh_bastion_certificate_file" cty_String false);
    ("ssh_file_transfer_method",
     AttrSpec "ssh_file_transfer_method" cty_String false);
    ("ssh_proxy_host",
     AttrSpec "ssh_proxy_host" cty_String false);
    ("ssh_proxy_port",
     AttrSpec "ssh_proxy_port" cty_Number false);
    ("ssh_proxy_username",
     AttrSpec "ssh_proxy_username" cty_String false);
    ("ssh_proxy_password",
     AttrSpec "ssh_proxy_password" cty_String false);
    ("ssh_keep_alive_interval",
     AttrSpec "ssh_keep_alive_interval" cty_String false);
    ("ssh_read_write_timeout",
     AttrSpec "ssh_read_write_timeout" cty_String false);
    ("ssh_remote_tunnels",
     AttrSpec "ssh_remote_tunnels" (cty_List cty_String) false);
    ("ssh_local_tunnels",
     AttrSpec "ssh_local_tunnels" (cty_List cty_String) false);
    ("ssh_public_key",
     AttrSpec "ssh_public_key" (cty_List cty_Number) false);
    ("ssh_private_key",
     AttrSpec "ssh_private_key" (cty_List cty_Number) false);
    ("winrm_username",
     AttrSpec "winrm_username" cty_String false);
    ("winrm_password",
     AttrSpec "winrm_password" cty_String false);
    ("winrm_host",
     AttrSpec "winrm_host" cty_String false);
    ("winrm_no_proxy",
     AttrSpec "winrm_no_proxy" cty_Bool false);
    ("winrm_port",
     AttrSpec "winrm_port" cty_Number false);
    ("winrm_timeout",
     AttrSpec "winrm_timeout" cty_String false);
    ("winrm_use_ssl",
     AttrSpec "winrm_use_ssl" cty_Bool false);
    ("winrm_insecure",
     AttrSpec "winrm_insecure" cty_Bool false);
    ("winrm_use_ntlm",
     AttrSpec "winrm_use_ntlm" cty_Bool false);
    ("token",
     AttrSpec "token" cty_String false);
    ("endpoint",
     AttrSpec "endpoint" cty_String false);
    ("poll_interval",
     AttrSpec "poll_interval" cty_String false);
    ("server_name",
     AttrSpec "server_name" cty_String false);
    ("location",
     AttrSpec "location" cty_String false);
    ("server_type",
     AttrSpec "server_type" cty_String false);
    ("server_labels",
     AttrSpec "server_labels" (cty_Map cty_String) false);
    ("upgrade_server_type",
     AttrSpec "upgrade_server_type" cty_String false);
    ("image",
     AttrSpec "image" cty_String false);
    ("image_filter",
     BlockSpec "image_filter" (ObjectSpec FlatimageFilter_HCL2Spec));
    ("snapshot_name",
     AttrSpec "snapshot_name" cty_String false);
    ("snapshot_labels",
     AttrSpec "snapshot_labels" (cty_Map cty_String) false);
    ("user_data",
     AttrSpec "user_data" cty_String false);
    ("user_data_file",
     AttrSpec "user_data_file" cty_String false);
    ("ssh_keys",
     AttrSpec "ssh_keys" (cty_List cty_String) false);
    ("ssh_keys_labels",
     AttrSpec "ssh_keys_labels" (cty_Map cty_String) false);
    ("networks",
     AttrSpec "networks" (cty_List cty_Number) false);
    ("public_ipv4",
     AttrSpec "public_ipv4" cty_String false);
    ("public_ipv4_disabled",
     AttrSpec "public_ipv4_disabled" cty_Bool false);
    ("public_ipv6",
     AttrSpec "public_ipv6" cty_String false);
    ("public_ipv6_disabled",
     AttrSpec "public_ipv6_disabled" cty_Bool false);
    ("firewalls",
     AttrSpec "firewalls" (cty_List cty_String) false);
    ("rescue",
     AttrSpec "rescue" cty_String false);
    ("keep_server",
     AttrSpec "keep_server" cty_Bool false);
    ("skip_snapshot",
     AttrSpec "skip_snapshot" cty_Bool false) ].

Definition FlatConfig_HCL2Spec : gmap string Spec :=
  list_to_map FlatConfig_HCL2Spec_entries.

(** The [mapstructure] tags of the fields of [Config] that are not squashed
    (config.go, lines 30-61), in the order of the fields. *)
Definition Config_mapstructure : list string :=
  [ "token"; "endpoint"; "poll_interval"; "server_name"; "location";
    "server_type"; "server_labels"; "upgrade_server_type"; "image";
    "image_filter"; "snapshot_name"; "snapshot_labels"; "user_data";
    "user_data_file"; "ssh_keys"; "ssh_keys_labels"; "networks";
    "public_ipv4"; "public_ipv4_disabled"; "public_ipv6";
    "public_ipv6_disabled"; "firewalls"; "volumes"; "rescue"; "keep_server";
    "skip_snapshot" ].

(** The [mapstructure] tags of [imageFilter] (config.go, lines 66-69). *)
Definition imageFilter_mapstructure : list string :=
  [ "with_selector"; "most_recent" ].

(** The [cty] type that holds the value of a field of a flat structure;
    [None] for the nested block. *)
Definition cty_of (t : flat_type) : option cty_Type :=
  match t with
  | ptr_string => Some cty_String
  | ptr_bool => Some cty_Bool
  | ptr_int => Some cty_Number
  | slice_string => Some (cty_List cty_String)
  | slice_byte => Some (cty_List cty_Number)
  | slice_int64 => Some (cty_List cty_Number)
  | map_string_string => Some (cty_Map cty_String)
  | ptr_FlatimageFilter => None
  end.

(** An entry as the generator writes it for a field: an optional attribute
    named after the key, or the block of the nested structure. *)
Definition entry_of (nested : gmap string Spec) (f : field) : Spec :=
  match cty_of (field_type f) with
  | Some t => AttrSpec (mapstructure f) t false
  | None => BlockSpec (mapstructure f) (ObjectSpec nested)
  end.

(** ** Worlds that differ in one call *)

(** The world [w] with another file system behind [os.Stat]. *)
Definition with_Stat {common_PackerConfig communicator_Config
    interpolate_Context Raw : Type} (stat : string -> option error)
    (w : World common_PackerConfig communicator_Config interpolate_Context Raw)
  : World common_PackerConfig communicator_Config interpolate_Context Raw :=
  {| Decode := Decode w; Getenv := Getenv w;
     hcloud_Endpoint := hcloud_Endpoint w; Render := Render w;
     TimeOrderedUUID := TimeOrderedUUID w; Comm_Prepare := Comm_Prepare w;
     Stat := stat |}.

(** The decoded configuration passes every check of [Prepare] when the
    communicator reports [es]. *)
Definition valid {common_PackerConfig communicator_Config
    interpolate_Context Raw : Type}
    (w : World common_PackerConfig communicator_Config interpolate_Context Raw)
    (es : list error)
    (d : @Config common_PackerConfig communicator_Config interpolate_Context)
  : Prop :=
  es = [] ∧ resolved_token w d ≠ "" ∧ Location d ≠ "" ∧ ServerType d ≠ "" ∧
  ((Image d ≠ "" ∧ ImageFilter d = None) ∨
   (Image d = "" ∧ exists f, ImageFilter d = Some f ∧ WithSelector f ≠ [])) ∧
  (UserDataFile d = "" ∨ (UserData d = "" ∧ Stat w (UserDataFile d) = None)).

(** ** More sample runs *)

Module Sample2.

(** The scenario configuration with explicit settings for all the defaulted
    fields, the poll interval a negative one. *)
Definition explicit : @Config unit unit unit :=
  set_ServerName "builder-1"
    (set_SnapshotName "base-image"
       (set_PollInterval (-1)
          (set_Endpoint "https://hcloud.test/v1" Sample.cx11))).

(** A world in which both environment variables are set and the template
    cannot be rendered. *)
Definition env_world : World unit unit unit (@Config unit unit unit) :=
  {| Decode := fun c raws => (List.last raws c, None);
     Getenv := fun name =>
       if decide (name = "HCLOUD_TOKEN") then "env-token"
       else if decide (name = "HCLOUD_ENDPOINT") then "https://env.test/v1"
       else "";
     hcloud_Endpoint := "https://api.hetzner.cloud/v1";
     Render := fun _ => ("", Some (errors_New "template: bad function"));
     TimeOrderedUUID := "5f0e8c1a-7d2b-11ee-b962-0242ac120002";
     Comm_Prepare := fun cm cx => (cm, cx, [errors_New "ssh_username is required"]);
     Stat := fun _ => Some (errors_New "no such file or directory") |}.

(** A world in which decoding fails. *)
Definition broken_world : World unit unit unit (@Config unit unit unit) :=
  {| Decode := fun c raws => (c, Some (errors_New "unknown configuration key"));
     Getenv := fun _ => "";
     hcloud_Endpoint := "https://api.hetzner.cloud/v1";
     Render := fun _ => ("packer-1700000000", None);
     TimeOrderedUUID := "5f0e8c1a-7d2b-11ee-b962-0242ac120002";
     Comm_Prepare := fun cm cx => (cm, cx, []);
     Stat := fun _ => None |}.

End Sample2.

(** * Properties of [Prepare] *)

Section PrepareProperties.
Context {common_PackerConfig communicator_Config interpolate_Context : Type}.
Context {Raw : Type}.
Implicit Types c d : @Config common_PackerConfig communicator_Config interpolate_Context.
Implicit Types w : World common_PackerConfig communicator_Config interpolate_Context Raw.
Implicit Types errs : option (list error).

Lemma appends_Errors errs errs' added :
  appends errs errs' added -> Errors_of errs' = Errors_of errs ++ added.
Proof.
  intros [[-> ->] | [_ ->]]; [by rewrite app_nil_r | done].
Qed.

Lemma appends_well_formed errs errs' added :
  well_formed errs -> appends errs errs' added -> well_formed errs'.
Proof.
  unfold well_formed.
  intros Hwf [[_ ->] | [Hne ->]]; [done |].
  intros [= Heq]. apply app_eq_nil in Heq as [_ ?]. done.
Qed.

Lemma check_comm_appends es errs : appends errs (check_comm es errs) es.
Proof.
  unfold check_comm. case_decide as Hlen.
  - right. split; [| done]. intros ->. simpl in Hlen. lia.
  - left. split; [| done]. destruct es; [done | simpl in Hlen; lia].
Qed.

Lemma check_token_appends c errs :
  appends errs (check_token c errs) (token_errors c).
Proof.
  unfold check_token, token_errors.
  case_decide; [right | left]; done.
Qed.

Lemma check_location_appends c errs :
  appends errs (check_location c errs) (location_errors c).
Proof.
  unfold check_location, location_errors.
  case_decide; [right | left]; done.
Qed.

Lemma check_server_type_appends c errs :
  appends errs (check_server_type c errs) (server_type_errors c).
Proof.
  unfold check_server_type, server_type_errors.
  case_decide; [right | left]; done.
Qed.

Lemma check_image_appends c errs :
  appends errs (check_image c errs) (image_errors c).
Proof.
  unfold check_image, image_errors.
  destruct (ImageFilter c) as [f |]; [destruct (WithSelector f) |];
    simpl; repeat case_decide; try (by left); try (by right);
    exfalso; intuition congruence.
Qed.

Lemma check_user_data_appends w c errs :
  appends errs (check_user_data w c errs) (user_data_errors w c).
Proof.
  unfold check_user_data, user_data_errors.
  repeat case_decide; try destruct (Stat w (UserDataFile c));
    try (by left); try (by right); exfalso; intuition congruence.
Qed.

(** The accumulator after all the blocks holds exactly the failed checks, in
    the order of the blocks, and is never a [MultiError] without errors. *)
Lemma checks_failed_checks w es c :
  Errors_of (checks w es c) = failed_checks w es c ∧ well_formed (checks w es c).
Proof.
  unfold checks, failed_checks.
  pose proof (check_comm_appends es None) as H1.
  pose proof (check_token_appends c (check_comm es None)) as H2.
  pose proof (check_location_appends c (check_token c (check_comm es None))) as H3.
  pose proof (check_server_type_appends c
                (check_location c (check_token c (check_comm es None)))) as H4.
  pose proof (check_image_appends c
                (check_server_type c
                   (check_location c (check_token c (check_comm es None))))) as H5.
  pose proof (check_user_data_appends w c
                (check_image c
                   (check_server_type c
                      (check_location c (check_token c (check_comm es None)))))) as H6.
  split.
  - rewrite (appends_Errors _ _ _ H6), (appends_Errors _ _ _ H5),
      (appends_Errors _ _ _ H4), (appends_Errors _ _ _ H3),
      (appends_Errors _ _ _ H2), (appends_Errors _ _ _ H1).
    simpl. by rewrite <- !app_assoc.
  - eapply appends_well_formed; [| exact H6].
    eapply appends_well_formed; [| exact H5].
    eapply appends_well_formed; [| exact H4].
    eapply appends_well_formed; [| exact H3].
    eapply appends_well_formed; [| exact H2].
    eapply appends_well_formed; [| exact H1]. done.
Qed.

(** [failed_checks] looks at seven fields only. *)
Lemma failed_checks_fields w es c d :
  HCloudToken c = HCloudToken d -> Location c = Location d ->
  ServerType c = ServerType d -> Image c = Image d ->
  ImageFilter c = ImageFilter d -> UserData c = UserData d ->
  UserDataFile c = UserDataFile d ->
  failed_checks w es c = failed_checks w es d.
Proof.
  intros Ht Hl Hs Hi Hf Hu Hp.
  unfold failed_checks, token_errors, location_errors, server_type_errors,
    image_errors, user_data_errors.
  by rewrite Ht, Hl, Hs, Hi, Hf, Hu, Hp.
Qed.

(** The defaults block leaves the checked settings alone, except for the
    token, which it resolves. *)
Lemma defaults_checked_fields w d :
  let d' := (defaults w d).1 in
  HCloudToken d' = resolved_token w d ∧ Location d' = Location d ∧
  ServerType d' = ServerType d ∧ Image d' = Image d ∧
  ImageFilter d' = ImageFilter d ∧ UserData d' = UserData d ∧
  UserDataFile d' = UserDataFile d ∧ SkipSnapshot d' = SkipSnapshot d.
Proof.
  unfold defaults, resolved_token.
  destruct (Render w "packer-{{timestamp}}") as [def [e |]];
    repeat case_decide; simpl; repeat split; congruence.
Qed.

(** The defaulted settings after the defaults block. *)
Lemma defaults_defaulted_fields w d :
  let d' := (defaults w d).1 in
  Endpoint d' =
    (if decide (Endpoint d = "")
     then if decide (Getenv w "HCLOUD_ENDPOINT" = "")
          then hcloud_Endpoint w else Getenv w "HCLOUD_ENDPOINT"
     else Endpoint d) ∧
  PollInterval d' =
    (if decide (PollInterval d = 0%Z) then 500000000%Z else PollInterval d) ∧
  ((defaults w d).2 = None ->
   SnapshotName d' =
     (if decide (SnapshotName d = "")
      then (Render w "packer-{{timestamp}}").1 else SnapshotName d) ∧
   ServerName d' =
     (if decide (ServerName d = "")
      then "packer-" +:+ TimeOrderedUUID w else ServerName d)).
Proof.
  unfold defaults.
  destruct (Render w "packer-{{timestamp}}") as [def [e |]];
    repeat case_decide; simpl; repeat split; try congruence; try done.
Qed.

(** The defaults block panics exactly when the default snapshot name is
    needed and cannot be rendered. *)
Lemma defaults_renders w d : renders w d <-> (defaults w d).2 = None.
Proof.
  unfold renders, defaults.
  destruct (Render w "packer-{{timestamp}}") as [def [e |]];
    repeat case_decide; simpl; intuition congruence.
Qed.

(** [Prepare] after a successful decoding, when the defaults block does not
    panic: one aggregated error with the failed checks, or success with the
    token handed to the secret filter. *)
Lemma Prepare_decoded w c filter raws d :
  Decode w c raws = (d, None) -> renders w d ->
  exists cm cx es,
    Comm_Prepare w (Comm (defaults w d).1) (ctx (defaults w d).1) = (cm, cx, es) ∧
    let c' := set_Comm cm cx (defaults w d).1 in
    let failed := failed_checks w es c' in
    Prepare w c filter raws =
      if decide (failed = [])
      then {| cfg := c'; secrets := LogSecretFilter_Set (HCloudToken c') filter;
              out := Return None None |}
      else {| cfg := c'; secrets := filter;
              out := Return None (Some (MultiError failed)) |}.
Proof.
  intros Hdec Hren. apply defaults_renders in Hren.
  unfold Prepare. rewrite Hdec.
  destruct (defaults w d) as [d' p] eqn:Hdef. simpl in Hren. subst p. simpl.
  destruct (Comm_Prepare w (Comm d') (ctx d')) as [[cm cx] es] eqn:Hcomm.
  exists cm, cx, es. split; [done |]. simpl.
  destruct (checks_failed_checks w es (set_Comm cm cx d')) as [Heq Hwf].
  rewrite <- Heq.
  destruct (checks w es (set_Comm cm cx d')) as [[| e errors] |]; simpl.
  - by destruct Hwf.
  - done.
  - done.
Qed.

(** [Prepare] after a successful decoding, in terms of the decoded
    configuration: the reported errors are the errors of the communicator
    and the failed checks of the decoded settings. *)
Lemma Prepare_reported w c filter raws d :
  Decode w c raws = (d, None) -> renders w d ->
  exists c' es,
    (Comm_Prepare w (Comm (defaults w d).1) (ctx (defaults w d).1)).2 = es ∧
    HCloudToken c' = resolved_token w d ∧
    Endpoint c' = Endpoint (defaults w d).1 ∧
    PollInterval c' = PollInterval (defaults w d).1 ∧
    SnapshotName c' = SnapshotName (defaults w d).1 ∧
    ServerName c' = ServerName (defaults w d).1 ∧
    image_errors c' = image_errors d ∧
    user_data_errors w c' = user_data_errors w d ∧
    Prepare w c filter raws =
      if decide (reported w es d = [])
      then {| cfg := c'; secrets := LogSecretFilter_Set (HCloudToken c') filter;
              out := Return None None |}
      else {| cfg := c'; secrets := filter;
              out := Return None (Some (MultiError (reported w es d))) |}.
Proof.
  intros Hdec Hren.
  destruct (Prepare_decoded w c filter raws d Hdec Hren)
    as (cm & cx & es & Hcomm & Hrun).
  destruct (defaults_checked_fields w d)
    as (Ht & Hl & Hs & Hi & Hf & Hu & Hp & _).
  exists (set_Comm cm cx (defaults w d).1), es.
  rewrite Hcomm. repeat split; try done.
  - unfold image_errors. simpl. by rewrite Hi, Hf.
  - unfold user_data_errors. simpl. by rewrite Hu, Hp.
  - simpl in Hrun. rewrite Hrun. unfold reported.
    by rewrite (failed_checks_fields w es (set_Comm cm cx (defaults w d).1)
                  (set_HCloudToken (resolved_token w d) d)).
Qed.

(** An error among the failed checks of the decoded settings, whatever the
    communicator says, is reported. *)
Lemma Prepare_reports w c filter raws d e :
  Decode w c raws = (d, None) -> renders w d ->
  (forall es, e ∈ reported w es d) ->
  reports (Prepare w c filter raws) e.
Proof.
  intros Hdec Hren Hin.
  destruct (Prepare_reported w c filter raws d Hdec Hren)
    as (c' & es & _ & _ & _ & _ & _ & _ & _ & _ & ->).
  specialize (Hin es).
  case_decide as Hnil.
  - rewrite Hnil in Hin. by apply elem_of_nil in Hin.
  - by exists (reported w es d).
Qed.

(** A block whose failed checks are none leaves the accumulator alone. *)
Lemma appends_nil errs errs' : appends errs errs' [] -> errs' = errs.
Proof. by intros [[_ ->] | [? _]]. Qed.

(** A call that returns [nil, nil] decoded its input and did not panic. *)
Lemma Prepare_succeeds_inv w c filter raws :
  succeeds (Prepare w c filter raws) ->
  exists d, Decode w c raws = (d, None) ∧ renders w d.
Proof.
  unfold succeeds, Prepare.
  destruct (Decode w c raws) as [d [e |]] eqn:Hdec; [done |].
  intros Hout. exists d. split; [done |]. apply defaults_renders.
  destruct (defaults w d) as [d' [e |]]; done.
Qed.

(** The default poll interval: when [poll_interval] is unset, zero after
    decoding, a successful [Prepare] leaves the poll interval of the
    configuration at exactly 500 milliseconds, that is 500000000
    nanoseconds. *)
Theorem Prepare_default_poll_interval w c filter raws d :
  Decode w c raws = (d, None) ->
  PollInterval d = 0%Z ->
  succeeds (Prepare w c filter raws) ->
  PollInterval (cfg (Prepare w c filter raws)) = (500 * time_Millisecond)%Z ∧
  PollInterval (cfg (Prepare w c filter raws)) = 500000000%Z.
Proof.
  intros Hdec Hzero Hok.
  destruct (Prepare_succeeds_inv _ _ _ _ Hok) as (d0 & Hdec0 & Hren).
  rewrite Hdec in Hdec0. injection Hdec0 as <-.
  destruct (Prepare_reported w c filter raws d Hdec Hren)
    as (c' & es & _ & _ & _ & Hpi & _ & _ & _ & _ & ->).
  destruct (defaults_defaulted_fields w d) as (_ & Hpoll & _).
  rewrite Hzero in Hpoll. rewrite decide_True in Hpoll by done.
  case_decide; simpl; rewrite Hpi, Hpoll; done.
Qed.

(** C5: [Prepare] returns no warnings and a validation error when no image
    selection is given ([image] empty and [image_filter] nil), when an
    [image_filter] comes without [with_selector] entries, and when both a
    direct image and an [image_filter] with a selector are given; with
    exactly one valid image selection the image block of the checks adds
    nothing to the errors. *)
Theorem Prepare_image_selection w c filter raws d :
  Decode w c raws = (d, None) ->
  renders w d ->
  let r := Prepare w c filter raws in
  (Image d = "" -> ImageFilter d = None ->
   reports r (errors_New "image or image_filter is required")) ∧
  (forall f, ImageFilter d = Some f -> WithSelector f = [] ->
   reports r (errors_New
     "image_filter.with_selector is required when specifying filter")) ∧
  (forall f, ImageFilter d = Some f -> WithSelector f ≠ [] -> Image d ≠ "" ->
   reports r (errors_New "only one of image or image_filter can be specified")) ∧
  ((Image d ≠ "" ∧ ImageFilter d = None) ∨
   (Image d = "" ∧ exists f, ImageFilter d = Some f ∧ WithSelector f ≠ []) ->
   image_errors (cfg r) = [] ∧ forall errs, check_image (cfg r) errs = errs).
Proof.
  intros Hdec Hren r.
  assert (Hrep : forall e, e ∈ image_errors d -> reports r e).
  { intros e He. apply (Prepare_reports w c filter raws d e Hdec Hren).
    intros es. unfold reported, failed_checks.
    rewrite !elem_of_app. do 4 right. left. exact He. }
  split; [| split; [| split]].
  - intros Himg Hflt. apply Hrep. unfold image_errors.
    rewrite Hflt, decide_True by done. set_solver.
  - intros f Hflt Hsel. apply Hrep. unfold image_errors.
    rewrite Hflt, decide_True by done. set_solver.
  - intros f Hflt Hsel Himg. apply Hrep. unfold image_errors.
    rewrite Hflt, decide_False, decide_False by done. set_solver.
  - intros Hone.
    destruct (Prepare_reported w c filter raws d Hdec Hren)
      as (c' & es & _ & _ & _ & _ & _ & _ & Hi & _ & Hrun).
    assert (Hcfg : cfg r = c') by (unfold r; rewrite Hrun; by case_decide).
    assert (Hnone : image_errors (cfg r) = []).
    { rewrite Hcfg, Hi. unfold image_errors.
      destruct Hone as [[Himg ->] | [Himg (f & -> & Hsel)]].
      - by rewrite decide_False.
      - by rewrite decide_False, decide_True. }
    split; [done |].
    intros errs. apply appends_nil.
    rewrite <- Hnone. apply check_image_appends.
Qed.

(** C6: [Prepare] returns a validation error when both [user_data] and
    [user_data_file] are set, and when only [user_data_file] is set and
    [os.Stat] finds no file at that path; with at most one of the two, and a
    file that [os.Stat] finds when [user_data_file] is the one, the user-data
    block of the checks adds nothing to the errors. *)
Theorem Prepare_user_data w c filter raws d :
  Decode w c raws = (d, None) ->
  renders w d ->
  let r := Prepare w c filter raws in
  (UserData d ≠ "" -> UserDataFile d ≠ "" ->
   reports r (errors_New
     "only one of user_data or user_data_file can be specified")) ∧
  (UserData d = "" -> UserDataFile d ≠ "" ->
   Stat w (UserDataFile d) ≠ None ->
   reports r (errors_New ("user_data_file not found: " +:+ UserDataFile d))) ∧
  (UserData d = "" ∨ UserDataFile d = "" ->
   (UserDataFile d ≠ "" -> Stat w (UserDataFile d) = None) ->
   user_data_errors w (cfg r) = [] ∧
   forall errs, check_user_data w (cfg r) errs = errs).
Proof.
  intros Hdec Hren r.
  assert (Hrep : forall e, e ∈ user_data_errors w d -> reports r e).
  { intros e He. apply (Prepare_reports w c filter raws d e Hdec Hren).
    intros es. unfold reported, failed_checks.
    rewrite !elem_of_app. do 5 right. exact He. }
  split; [| split].
  - intros Hud Hfile. apply Hrep. unfold user_data_errors.
    rewrite decide_False, decide_False by done. set_solver.
  - intros Hud Hfile Hstat. apply Hrep. unfold user_data_errors, Sprintf_s.
    rewrite decide_False, decide_True by done.
    destruct (Stat w (UserDataFile d)); [set_solver | done].
  - intros Hone Hstat.
    destruct (Prepare_reported w c filter raws d Hdec Hren)
      as (c' & es & _ & _ & _ & _ & _ & _ & _ & Hu & Hrun).
    assert (Hcfg : cfg r = c') by (unfold r; rewrite Hrun; by case_decide).
    assert (Hnone : user_data_errors w (cfg r) = []).
    { rewrite Hcfg, Hu. unfold user_data_errors.
      destruct (decide (UserDataFile d = "")) as [Hfile | Hfile]; [done |].
      rewrite (Hstat Hfile). destruct Hone as [Hud | Hf]; [| congruence].
      by rewrite decide_True. }
    split; [done |].
    intros errs. apply appends_nil.
    rewrite <- Hnone. apply check_user_data_appends.
Qed.

(** C8: when several checks fail at once, [Prepare] returns [nil] warnings
    and one [MultiError] whose [Errors] are the errors of the communicator
    followed by one message for each failed check, none left out; with the
    resolved token, the location and the server type all empty, the three
    messages are in that one error. *)
Theorem Prepare_aggregates_errors w c filter raws d :
  Decode w c raws = (d, None) ->
  renders w d ->
  let r := Prepare w c filter raws in
  let es := (Comm_Prepare w (Comm (defaults w d).1) (ctx (defaults w d).1)).2 in
  let tok := set_HCloudToken (resolved_token w d) d in
  (es ++ token_errors tok ++ location_errors d ++ server_type_errors d
      ++ image_errors d ++ user_data_errors w d ≠ [] ->
   out r = Return None (Some (MultiError
     (es ++ token_errors tok ++ location_errors d ++ server_type_errors d
         ++ image_errors d ++ user_data_errors w d)))) ∧
  (resolved_token w d = "" -> Location d = "" -> ServerType d = "" ->
   exists errors,
     out r = Return None (Some (MultiError errors)) ∧
     errors_New
       "token is missing, make sure to configure your Hetzner Cloud token"
       ∈ errors ∧
     errors_New "location is required" ∈ errors ∧
     errors_New "server type is required" ∈ errors).
Proof.
  intros Hdec Hren r es tok.
  destruct (Prepare_reported w c filter raws d Hdec Hren)
    as (c' & es' & Hes & _ & _ & _ & _ & _ & _ & _ & Hrun).
  fold es in Hes. subst es'.
  assert (Hflat : reported w es d =
            es ++ token_errors tok ++ location_errors d ++ server_type_errors d
               ++ image_errors d ++ user_data_errors w d) by reflexivity.
  assert (Hfail : reported w es d ≠ [] ->
            out r = Return None (Some (MultiError (reported w es d)))).
  { intros Hne. unfold r. rewrite Hrun. by rewrite decide_False. }
  split.
  - rewrite <- Hflat. exact Hfail.
  - intros Htok Hloc Hst.
    assert (Ht : token_errors tok =
              [errors_New
                 "token is missing, make sure to configure your Hetzner Cloud token"]).
    { unfold token_errors, tok. simpl. by rewrite decide_True. }
    assert (Hl : location_errors d = [errors_New "location is required"]).
    { unfold location_errors. by rewrite decide_True. }
    assert (Hs : server_type_errors d = [errors_New "server type is required"]).
    { unfold server_type_errors. by rewrite decide_True. }
    exists (reported w es d). split.
    + apply Hfail. rewrite Hflat, Ht. by destruct es.
    + rewrite Hflat, Ht, Hl, Hs. set_solver.
Qed.

(** C9: after a successful [Prepare] the defaulted fields are populated.
    [Endpoint] is not empty: it is the configured one, else [HCLOUD_ENDPOINT],
    else the default of hcloud-go, which is taken to be a non-empty constant.
    [PollInterval] is not zero.  [SnapshotName] is not empty: it is the
    configured one, else the rendering of the packer-timestamp template,
    which is taken to be non-empty when it succeeds.  [ServerName] is not
    empty: it is the configured one, else "packer-" followed by the
    time-ordered UUID. *)
Theorem Prepare_defaults_populated w c filter raws :
  hcloud_Endpoint w ≠ "" ->
  (forall def, Render w "packer-{{timestamp}}" = (def, None) -> def ≠ "") ->
  succeeds (Prepare w c filter raws) ->
  let c' := cfg (Prepare w c filter raws) in
  let d := (Decode w c raws).1 in
  Endpoint c' ≠ "" ∧
  PollInterval c' ≠ 0%Z ∧
  SnapshotName c' ≠ "" ∧
  ServerName c' ≠ "" ∧
  (Endpoint d = "" -> Getenv w "HCLOUD_ENDPOINT" ≠ "" ->
   Endpoint c' = Getenv w "HCLOUD_ENDPOINT") ∧
  (Endpoint d = "" -> Getenv w "HCLOUD_ENDPOINT" = "" ->
   Endpoint c' = hcloud_Endpoint w) ∧
  (SnapshotName d = "" ->
   SnapshotName c' = (Render w "packer-{{timestamp}}").1) ∧
  (ServerName d = "" -> ServerName c' = "packer-" +:+ TimeOrderedUUID w).
Proof.
  intros Hend Hrender Hok c' d.
  destruct (Prepare_succeeds_inv _ _ _ _ Hok) as (d0 & Hdec & Hren).
  assert (d = d0) as -> by (unfold d; by rewrite Hdec).
  destruct (Prepare_reported w c filter raws d0 Hdec Hren)
    as (c0 & es & _ & _ & He & Hp & Hsn & Hn & _ & _ & Hrun).
  assert (Hcfg : c' = c0) by (unfold c'; rewrite Hrun; by case_decide).
  rewrite Hcfg, He, Hp, Hsn, Hn. clear Hcfg He Hp Hsn Hn Hrun.
  destruct (defaults_defaulted_fields w d0) as (He & Hp & Hnames).
  apply defaults_renders in Hren.
  destruct (Hnames Hren) as [Hsn Hn].
  rewrite He, Hp, Hsn, Hn. clear He Hp Hsn Hn Hnames.
  assert (Hdef : SnapshotName d0 = "" ->
                 (Render w "packer-{{timestamp}}").1 ≠ "").
  { intros Hempty. apply defaults_renders in Hren.
    destruct Hren as [Hne | Hnone]; [done |].
    destruct (Render w "packer-{{timestamp}}") as [def err] eqn:Hr.
    simpl in *. subst err. by apply Hrender. }
  repeat split.
  - repeat case_decide; done.
  - case_decide as Hz; [done | exact Hz].
  - case_decide; [by apply Hdef | done].
  - case_decide; [discriminate | done].
  - intros H1 H2. rewrite decide_True, decide_False by done. done.
  - intros H1 H2. by rewrite decide_True, decide_True.
  - intros H1. by rewrite decide_True.
  - intros H1. by rewrite decide_True.
Qed.

(** C10: a successful [Prepare] hands the resolved token, which is not empty,
    to the secret filter; a call that is not successful leaves the secret
    filter as it was. *)
Theorem Prepare_registers_token w c filter raws :
  let r := Prepare w c filter raws in
  (succeeds r ->
   exists d, Decode w c raws = (d, None) ∧
     HCloudToken (cfg r) = resolved_token w d ∧
     resolved_token w d ≠ "" ∧
     secrets r = LogSecretFilter_Set (resolved_token w d) filter ∧
     resolved_token w d ∈ secrets r) ∧
  (¬ succeeds r -> secrets r = filter).
Proof.
  intros r. split.
  - intros Hok.
    destruct (Prepare_succeeds_inv _ _ _ _ Hok) as (d & Hdec & Hren).
    exists d. split; [done |].
    destruct (Prepare_reported w c filter raws d Hdec Hren)
      as (c' & es & _ & Ht & _ & _ & _ & _ & _ & _ & Hrun).
    unfold succeeds in Hok. unfold r in *. rewrite Hrun in *.
    case_decide as Hnil; [| done]. simpl. rewrite Ht.
    repeat split; [| unfold LogSecretFilter_Set; set_solver].
    intros Hempty. unfold reported, failed_checks in Hnil.
    apply app_eq_nil in Hnil as [_ Hnil].
    apply app_eq_nil in Hnil as [Hnil _].
    unfold token_errors in Hnil. simpl in Hnil.
    by rewrite decide_True in Hnil.
  - unfold succeeds, r, Prepare.
    destruct (Decode w c raws) as [d [e |]]; [done |].
    destruct (defaults w d) as [d' [e |]]; [done |].
    destruct (Comm_Prepare w (Comm d') (ctx d')) as [[cm cx] es].
    destruct (checks w es (set_Comm cm cx d')) as [[| e errors] |]; simpl;
      done.
Qed.

End PrepareProperties.

(** * Properties of [getServerIP] *)

(** C2, as the code has it: when the key holds a string, [getServerIP]
    returns that string and a [nil] error; when the key is absent the call
    does not return, the type assertion panics; and whenever the call
    returns, the error is [nil] and the string is the one the key holds, so
    no error value is ever returned. *)
Theorem getServerIP_string_or_panic (StateServerIP : string)
    (state : gmap string any) :
  (forall ip, state !! StateServerIP = Some (any_string ip) ->
   getServerIP StateServerIP state = Return ip None) ∧
  (state !! StateServerIP = None ->
   exists v, getServerIP StateServerIP state = Panic v) ∧
  (forall ip err, getServerIP StateServerIP state = Return ip err ->
   err = None ∧ state !! StateServerIP = Some (any_string ip)).
Proof.
  unfold getServerIP, Get. split; [| split].
  - by intros ip ->.
  - intros ->. by eexists.
  - intros ip err.
    destruct (state !! StateServerIP) as [[s | b | n | e] |]; try done.
    by intros [= -> <-].
Qed.

(** C2, as stated, fails: on the empty state, where the key is absent,
    [getServerIP] returns no error value at all. *)
Lemma getServerIP_absent_no_error :
  (∅ : gmap string any) !! "server_ip" = None ∧
  ¬ (exists ip e, getServerIP "server_ip" ∅ = Return ip (Some e)) ∧
  ¬ (forall (key : string) (state : gmap string any),
       state !! key = None ->
       exists ip e, getServerIP key state = Return ip (Some e)).
Proof.
  split; [done |]. split.
  - by intros (ip & e & Hret).
  - intros Hall. by destruct (Hall "server_ip" ∅ (lookup_empty _)) as (ip & e & Hret).
Qed.

(** * Properties of the Pipeline Runner *)

Section RunnerProperties.
Import Pipeline.
Context {S : Type} `{Step S}.
Implicit Types (steps executed : list S) (state : gmap string any).

Lemma ran_cons_continue s steps state state' :
  run s state = (Continue, state') ->
  ran (s :: steps) state = Datatypes.S (ran steps state').
Proof.
  unfold ran. simpl. intros ->. by destruct (halts_at steps state').
Qed.

Lemma ran_cons_halt s steps state state' :
  run s state = (Halt, state') -> ran (s :: steps) state = 1.
Proof. unfold ran. simpl. by intros ->. Qed.

(** The forward pass runs a prefix of the Steps, in order, and hands them to
    the unwind pass the latest first. *)
Lemma forward_prefix steps : forall state executed,
  (forward steps state executed).1.1.1 = RunEv <$> take (ran steps state) steps ∧
  (forward steps state executed).1.1.2
    = reverse (take (ran steps state) steps) ++ executed ∧
  (forward steps state executed).2
    = bool_decide (is_Some (halts_at steps state)).
Proof.
  induction steps as [| s rest IH]; intros state executed; [done |].
  simpl. destruct (run s state) as [[|] state'] eqn:Hrun.
  - rewrite (ran_cons_continue _ _ _ _ Hrun).
    destruct (IH state' (s :: executed)) as (Hevs & Hex & Hhalt).
    destruct (forward rest state' (s :: executed)) as [[[evs ex] st] h].
    simpl in *. subst. repeat split.
    + by rewrite reverse_cons, <- app_assoc.
    + by destruct (halts_at rest state').
  - rewrite (ran_cons_halt _ _ _ _ Hrun). simpl. repeat split.
Qed.

(** The unwind pass cleans up what it is handed, in that order. *)
Lemma unwind_events executed : forall state,
  (unwind executed state).1.1 = CleanupEv <$> executed.
Proof.
  induction executed as [| s earlier IH]; intros state; [done |].
  simpl. destruct (cleanup s state) as [state' failure].
  specialize (IH state').
  destruct (unwind earlier state') as [[evs st] errs].
  simpl in *. by subst.
Qed.

(** The events of a whole run. *)
Lemma Runner_trace steps state :
  trace (Runner steps state)
  = (RunEv <$> take (ran steps state) steps)
    ++ (CleanupEv <$> reverse (take (ran steps state) steps)) ∧
  halted (Runner steps state) = bool_decide (is_Some (halts_at steps state)).
Proof.
  unfold Runner.
  destruct (forward_prefix steps state []) as (Hevs & Hex & Hhalt).
  destruct (forward steps state []) as [[[evs ex] st] h].
  pose proof (unwind_events ex st) as Hclean.
  destruct (unwind ex st) as [[cevs st'] errs].
  simpl in *. subst. by rewrite app_nil_r.
Qed.

Lemma halts_at_bounds steps : forall state N,
  halts_at steps state = Some N -> (1 ≤ N ≤ length steps)%nat.
Proof.
  induction steps as [| s rest IH]; intros state N; [done |].
  simpl. destruct (run s state) as [[|] state'].
  - destruct (halts_at rest state') as [n |] eqn:Hn; [| done].
    intros [= <-]. specialize (IH state' n Hn). unfold Nat.succ. simpl. lia.
  - intros [= <-]. simpl. lia.
Qed.

(** A state property that every [run] and every [cleanup] of the Steps
    keeps, holds of the final state. *)
Lemma forward_keeps (P : gmap string any -> Prop) steps :
  (forall s state, s ∈ steps -> P state -> P (run s state).2) ->
  forall state executed, P state -> P (forward steps state executed).1.2.
Proof.
  induction steps as [| s rest IH]; intros Hrun state executed HP; [done |].
  simpl. pose proof (Hrun s state ltac:(set_solver) HP) as HP'.
  destruct (run s state) as [[|] state']; [| done].
  simpl in HP'.
  specialize (IH ltac:(intros; apply Hrun; set_solver) state' (s :: executed) HP').
  by destruct (forward rest state' (s :: executed)) as [[[evs ex] st] h].
Qed.

Lemma unwind_keeps (P : gmap string any -> Prop) executed :
  (forall s state, s ∈ executed -> P state -> P (cleanup s state).1) ->
  forall state, P state -> P (unwind executed state).1.2.
Proof.
  induction executed as [| s earlier IH]; intros Hclean state HP; [done |].
  simpl. pose proof (Hclean s state ltac:(set_solver) HP) as HP'.
  destruct (cleanup s state) as [state' failure]. simpl in HP'.
  specialize (IH ltac:(intros; apply Hclean; set_solver) state' HP').
  by destruct (unwind earlier state') as [[evs st] errs].
Qed.

Lemma Runner_keeps (P : gmap string any -> Prop) steps state :
  (forall s state, s ∈ steps -> P state ->
                   P (run s state).2 ∧ P (cleanup s state).1) ->
  P state -> P (final (Runner steps state)).
Proof.
  intros Hkeep HP. unfold Runner.
  pose proof (forward_keeps P steps
                ltac:(intros; by apply Hkeep) state [] HP) as Hfwd.
  destruct (forward_prefix steps state []) as (_ & Hex & _).
  destruct (forward steps state []) as [[[evs ex] st] h]. simpl in *.
  assert (Hsub : forall s, s ∈ ex -> s ∈ steps).
  { intros s. rewrite Hex, app_nil_r, elem_of_reverse.
    apply subseteq_take. }
  pose proof (unwind_keeps P ex
                ltac:(intros; apply Hkeep; auto) st Hfwd) as Hun.
  by destruct (unwind ex st) as [[cevs st'] errs].
Qed.

(** C1: in a build that halts at Step [N], the Runner runs the Steps 1 to
    [N] in order and nothing after the Halt, then cleans up the Steps [N]
    down to 1, the one that halted included, in strict reverse order; a Step
    after [N] is neither run nor cleaned up. *)
Theorem Runner_halt_unwinds steps state N :
  halts_at steps state = Some N ->
  trace (Runner steps state)
  = (RunEv <$> take N steps) ++ (CleanupEv <$> reverse (take N steps)) ∧
  halted (Runner steps state) = true ∧
  (1 ≤ N ≤ length steps)%nat ∧
  (NoDup steps -> forall s, s ∈ drop N steps ->
     (RunEv s ∉ trace (Runner steps state)) ∧
     (CleanupEv s ∉ trace (Runner steps state))).
Proof.
  intros Hhalt.
  destruct (Runner_trace steps state) as [Htrace Hhalted].
  unfold ran in Htrace. rewrite Hhalt in Htrace, Hhalted. simpl in Htrace.
  split; [done |]. split; [by rewrite Hhalted, bool_decide_true |].
  split; [by eapply halts_at_bounds |].
  intros Hnodup s Hlater.
  assert (Hnot : s ∉ take N steps).
  { rewrite <- (take_drop N steps) in Hnodup.
    apply NoDup_app in Hnodup as (_ & Hdisj & _).
    intros Hin. by apply (Hdisj s). }
  rewrite Htrace. split.
  - rewrite elem_of_app, !list_elem_of_fmap.
    intros [(s' & [= ->] & Hin) | (s' & [=] & _)]. by apply Hnot.
  - rewrite elem_of_app, !list_elem_of_fmap.
    intros [(s' & [=] & _) | (s' & [= ->] & Hin)].
    apply Hnot. by apply elem_of_reverse.
Qed.

End RunnerProperties.

(** * Properties of the Build Orchestrator *)

Section OrchestratorProperties.
Import Pipeline.
Context {common_PackerConfig communicator_Config interpolate_Context : Type}.
Context `{Step StepName}.
Implicit Types c : @Config common_PackerConfig communicator_Config interpolate_Context.

(** With the skip-snapshot flag the assembled sequence has no
    CreateSnapshot. *)
Lemma assemble_skip c :
  SkipSnapshot c = true -> CreateSnapshot ∉ assemble c.
Proof.
  unfold assemble. intros ->. rewrite app_nil_r.
  rewrite !not_elem_of_cons. repeat split; try discriminate.
  apply not_elem_of_nil.
Qed.

(** Only assembled Steps are run or cleaned up. *)
Lemma Runner_events_assembled (steps : list StepName) state s :
  RunEv s ∈ trace (Runner steps state) ∨
  CleanupEv s ∈ trace (Runner steps state) ->
  s ∈ steps.
Proof.
  destruct (Runner_trace steps state) as [-> _].
  rewrite !elem_of_app, !list_elem_of_fmap.
  intros [[(s' & [= ->] & Hin) | (s' & [=] & _)]
         | [(s' & [=] & _) | (s' & [= ->] & Hin)]].
  - revert Hin. apply subseteq_take.
  - rewrite elem_of_reverse in Hin. revert Hin. apply subseteq_take.
Qed.

(** C7: with the skip-snapshot flag set, CreateSnapshot is never run (nor
    cleaned up), and, CreateSnapshot being the only Step that stores an image
    identifier, the image identifier of the final artifact is empty. *)
Theorem Orchestrate_skip_snapshot (StateImageID : string) c :
  SkipSnapshot c = true ->
  (forall s state, s ≠ CreateSnapshot -> state !! StateImageID = None ->
     (run s state).2 !! StateImageID = None ∧
     (cleanup s state).1 !! StateImageID = None) ->
  (RunEv CreateSnapshot ∉ trace (Orchestrate c)) ∧
  (CleanupEv CreateSnapshot ∉ trace (Orchestrate c)) ∧
  image_identifier StateImageID (final (Orchestrate c)) = "".
Proof.
  intros Hskip Hframe.
  pose proof (assemble_skip c Hskip) as Hnot.
  unfold Orchestrate. split; [| split].
  - intros Hin. apply Hnot.
    apply (Runner_events_assembled _ ∅). by left.
  - intros Hin. apply Hnot.
    apply (Runner_events_assembled _ ∅). by right.
  - unfold image_identifier.
    rewrite (Runner_keeps (fun state => state !! StateImageID = None)
               (assemble c) ∅); [done | | apply lookup_empty].
    intros s state Hin Hnone. apply Hframe; [| done].
    intros ->. by apply Hnot.
Qed.

End OrchestratorProperties.

(** * Properties of polling *)

Section PollingProperties.
Import Polling.
Implicit Types (interval : positive) (deadline now : N) (responses : nat -> Status).

(** [n] answers in progress from the query [k] on, the wait after the last
    of which would end after the deadline: polling halts at the deadline. *)
Lemma poll_loop_timeout interval deadline responses n : forall k now,
  (forall i, (i < n)%nat -> responses (k + i)%nat = in_progress) ->
  (now ≤ deadline)%N ->
  (deadline < now + N.of_nat n * Npos interval)%N ->
  poll_loop interval deadline responses k now
  = {| ending := PollTimeoutError; elapsed := deadline |}.
Proof.
  induction n as [| n IH]; intros k now Hprog Hnow Hlate; [lia |].
  simp poll_loop.
  pose proof (Hprog 0%nat ltac:(lia)) as Hk. rewrite Nat.add_0_r in Hk.
  rewrite Hk. simpl.
  destruct (decide (now + N.pos interval ≤ deadline)%N) as [Hfit | Hcut];
    simpl; [| done].
  apply IH; [| done | lia].
  intros i Hi. replace (Datatypes.S k + i)%nat with (k + Datatypes.S i)%nat by lia.
  apply Hprog. lia.
Qed.

(** [n] answers in progress from the query [k] on, then a terminal one, all
    the waits ending by the deadline: polling ends with the terminal answer
    after [n] intervals. *)
Lemma poll_loop_terminal interval deadline responses n : forall k now,
  (forall i, (i < n)%nat -> responses (k + i)%nat = in_progress) ->
  (now + N.of_nat n * Npos interval ≤ deadline)%N ->
  (responses (k + n)%nat = succeeded ->
   poll_loop interval deadline responses k now
   = {| ending := Proceed; elapsed := now + N.of_nat n * Npos interval |}) ∧
  (forall msg, responses (k + n)%nat = failed msg ->
   poll_loop interval deadline responses k now
   = {| ending := ActionFailedError msg;
        elapsed := now + N.of_nat n * Npos interval |}).
Proof.
  induction n as [| n IH]; intros k now Hprog Hfit.
  - rewrite Nat.add_0_r. simpl. rewrite N.add_0_r.
    split; [intros Hlast | intros msg Hlast];
      simp poll_loop; by rewrite Hlast.
  - pose proof (Hprog 0%nat ltac:(lia)) as Hk. rewrite Nat.add_0_r in Hk.
    assert (Hstep : poll_loop interval deadline responses k now
                    = poll_loop interval deadline responses (Datatypes.S k)
                        (now + Npos interval)).
    { rewrite (poll_loop_equation_1 interval deadline responses k now).
      rewrite Hk. simpl.
      destruct (decide (now + N.pos interval ≤ deadline)%N); [done | lia]. }
    rewrite Hstep.
    replace (k + Datatypes.S n)%nat with (Datatypes.S k + n)%nat by lia.
    replace (now + N.of_nat (Datatypes.S n) * N.pos interval)%N
      with (now + N.pos interval + N.of_nat n * N.pos interval)%N by lia.
    apply IH; [| lia].
    intros i Hi. replace (Datatypes.S k + i)%nat with (k + Datatypes.S i)%nat by lia.
    apply Hprog. lia.
Qed.

(** C3, as the polling algorithm has it: [n] answers in progress and then
    [succeeded] or [failed] end polling after exactly [n] times the poll
    interval, provided that time is not after the deadline; when it is after
    the deadline, and when every answer is in progress, polling halts with
    [PollTimeoutError] exactly at the deadline. *)
Theorem poll_terminates interval deadline responses :
  (forall n, (forall i, (i < n)%nat -> responses i = in_progress) ->
     (N.of_nat n * Npos interval ≤ deadline)%N ->
     (responses n = succeeded ->
      poll interval deadline responses
      = {| ending := Proceed; elapsed := N.of_nat n * Npos interval |}) ∧
     (forall msg, responses n = failed msg ->
      poll interval deadline responses
      = {| ending := ActionFailedError msg;
           elapsed := N.of_nat n * Npos interval |})) ∧
  (forall n, (forall i, (i < n)%nat -> responses i = in_progress) ->
     (deadline < N.of_nat n * Npos interval)%N ->
     poll interval deadline responses
     = {| ending := PollTimeoutError; elapsed := deadline |}) ∧
  ((forall i, responses i = in_progress) ->
   poll interval deadline responses
   = {| ending := PollTimeoutError; elapsed := deadline |}).
Proof.
  unfold poll. split; [| split].
  - intros n Hprog Hfit.
    apply (poll_loop_terminal interval deadline responses n 0 0%N); [done | lia].
  - intros n Hprog Hlate.
    apply (poll_loop_timeout interval deadline responses n 0 0%N);
      [done | lia | lia].
  - intros Hall.
    apply (poll_loop_timeout interval deadline responses
             (Datatypes.S (N.to_nat deadline)) 0 0%N); [done | lia | nia].
Qed.

End PollingProperties.

(** * The properties on sample runs *)

(** C1 on three numbered steps of which the second halts: steps 1 and 2 run,
    then 2 and 1 are cleaned up, and step 3 is left alone. *)
Lemma Runner_halt_unwinds_sample :
  Pipeline.halts_at (H := Sample.second_halts) [1; 2; 3] ∅ = Some 2 ∧
  Pipeline.trace (Pipeline.Runner (H := Sample.second_halts) [1; 2; 3] ∅)
  = [Pipeline.RunEv 1; Pipeline.RunEv 2;
     Pipeline.CleanupEv 2; Pipeline.CleanupEv 1].
Proof.
  split; [reflexivity |].
  apply (Runner_halt_unwinds (H := Sample.second_halts) [1; 2; 3] ∅ 2).
  reflexivity.
Defined.

(** C2 on a state that holds the address. *)
Lemma getServerIP_sample :
  getServerIP "server_ip" (Put "server_ip" (any_string "10.0.0.2") ∅)
  = Return "10.0.0.2" None.
Proof.
  apply (getServerIP_string_or_panic "server_ip"
           (Put "server_ip" (any_string "10.0.0.2") ∅)).
  apply lookup_insert_eq.
Defined.

(** C3 on three answers in progress and then [succeeded], at an interval of
    500 with the deadline at 2000. *)
Lemma poll_terminates_sample :
  Polling.poll 500 2000 (Polling.after 3 Polling.succeeded)
  = {| Polling.ending := Polling.Proceed; Polling.elapsed := 1500 |}.
Proof.
  apply (poll_terminates 500 2000 (Polling.after 3 Polling.succeeded)) with (n := 3).
  - intros i Hi. unfold Polling.after. by rewrite decide_True.
  - vm_compute. discriminate.
  - reflexivity.
Defined.

(** C3, as stated, fails: three answers in progress and then [succeeded], at
    an interval of 500 with the deadline at 1000, do not end polling after
    1500 but with [PollTimeoutError] at 1000. *)
Lemma poll_late_success_times_out :
  Polling.poll 500 1000 (Polling.after 3 Polling.succeeded)
  = {| Polling.ending := Polling.PollTimeoutError; Polling.elapsed := 1000 |} ∧
  ¬ (forall interval deadline responses n,
       (forall i, (i < n)%nat -> responses i = Polling.in_progress) ->
       responses n = Polling.succeeded ->
       Polling.elapsed (Polling.poll interval deadline responses)
       = (N.of_nat n * Npos interval)%N).
Proof.
  assert (Hrun : Polling.poll 500 1000 (Polling.after 3 Polling.succeeded)
                 = {| Polling.ending := Polling.PollTimeoutError;
                      Polling.elapsed := 1000 |}) by (vm_compute; reflexivity).
  split; [exact Hrun |].
  intros Hall.
  specialize (Hall 500%positive 1000%N (Polling.after 3 Polling.succeeded) 3).
  rewrite Hrun in Hall. simpl in Hall.
  assert (1000 = 1500)%N as Habs; [| discriminate Habs].
  apply Hall; [| reflexivity].
  intros i Hi. unfold Polling.after. by rewrite decide_True.
Qed.

(** The default poll interval of the scenario configuration, which sets
    none. *)
Lemma Prepare_default_poll_interval_sample :
  PollInterval Sample.cx11 = 0%Z ∧
  PollInterval (cfg (Prepare Sample.world Sample.cx11 ∅ [Sample.cx11]))
  = 500000000%Z.
Proof.
  split; [reflexivity |].
  apply (Prepare_default_poll_interval Sample.world Sample.cx11 ∅
           [Sample.cx11] Sample.cx11); reflexivity.
Defined.

(** C5 on a configuration without any image selection, on one whose filter
    has no selector, on one with both an image and a filter, and on the
    scenario configuration with its direct image. *)
Lemma Prepare_image_selection_sample :
  let run d := Prepare Sample.world d ∅ [d] in
  let flt sel := {| WithSelector := sel; MostRecent := true |} in
  let d1 := Sample.config "token-1" "nbg1" "cx11" "" None "" "" false in
  let d2 := Sample.config "token-1" "nbg1" "cx11" "" (Some (flt [])) "" "" false in
  let d3 := Sample.config "token-1" "nbg1" "cx11" "ubuntu-22.04"
              (Some (flt ["name==base"])) "" "" false in
  reports (run d1) (errors_New "image or image_filter is required") ∧
  reports (run d2)
    (errors_New "image_filter.with_selector is required when specifying filter") ∧
  reports (run d3)
    (errors_New "only one of image or image_filter can be specified") ∧
  image_errors (cfg (run Sample.cx11)) = [].
Proof.
  intros run flt d1 d2 d3.
  destruct (Prepare_image_selection Sample.world d1 ∅ [d1] d1 eq_refl
              (or_intror eq_refl)) as (H1 & _).
  destruct (Prepare_image_selection Sample.world d2 ∅ [d2] d2 eq_refl
              (or_intror eq_refl)) as (_ & H2 & _).
  destruct (Prepare_image_selection Sample.world d3 ∅ [d3] d3 eq_refl
              (or_intror eq_refl)) as (_ & _ & H3 & _).
  destruct (Prepare_image_selection Sample.world Sample.cx11 ∅ [Sample.cx11]
              Sample.cx11 eq_refl (or_intror eq_refl)) as (_ & _ & _ & H4).
  split; [| split; [| split]].
  - apply H1; reflexivity.
  - apply (H2 (flt [])); reflexivity.
  - apply (H3 (flt ["name==base"])); [reflexivity | discriminate | discriminate].
  - apply H4. left. split; [discriminate | reflexivity].
Defined.

(** C6 on a configuration with both user-data settings, on one whose
    user-data file is missing, and on one whose user-data file exists. *)
Lemma Prepare_user_data_sample :
  let run d := Prepare Sample.world d ∅ [d] in
  let d1 := Sample.config "token-1" "nbg1" "cx11" "ubuntu-22.04" None
              "#cloud-config" "/etc/cloud-init.yml" false in
  let d2 := Sample.config "token-1" "nbg1" "cx11" "ubuntu-22.04" None
              "" "/nowhere.yml" false in
  let d3 := Sample.config "token-1" "nbg1" "cx11" "ubuntu-22.04" None
              "" "/etc/cloud-init.yml" false in
  reports (run d1)
    (errors_New "only one of user_data or user_data_file can be specified") ∧
  reports (run d2) (errors_New "user_data_file not found: /nowhere.yml") ∧
  user_data_errors Sample.world (cfg (run d3)) = [].
Proof.
  intros run d1 d2 d3.
  destruct (Prepare_user_data Sample.world d1 ∅ [d1] d1 eq_refl
              (or_intror eq_refl)) as (H1 & _).
  destruct (Prepare_user_data Sample.world d2 ∅ [d2] d2 eq_refl
              (or_intror eq_refl)) as (_ & H2 & _).
  destruct (Prepare_user_data Sample.world d3 ∅ [d3] d3 eq_refl
              (or_intror eq_refl)) as (_ & _ & H3).
  split; [| split].
  - apply H1; discriminate.
  - apply H2; [reflexivity | discriminate | discriminate].
  - apply H3; [by left | reflexivity].
Defined.

(** C7 on the scenario configuration, whose skip-snapshot flag is set. *)
Lemma Orchestrate_skip_snapshot_sample :
  SkipSnapshot Sample.cx11 = true ∧
  (Pipeline.RunEv Pipeline.CreateSnapshot
     ∉ Pipeline.trace (Pipeline.Orchestrate (H := Sample.steps) Sample.cx11)) ∧
  Pipeline.image_identifier "snapshot_id"
    (Pipeline.final (Pipeline.Orchestrate (H := Sample.steps) Sample.cx11)) = "".
Proof.
  split; [reflexivity |].
  assert (Hframe : forall s (state : gmap string any),
            s ≠ Pipeline.CreateSnapshot -> state !! "snapshot_id" = None ->
            (Pipeline.run (Step := Sample.steps) s state).2 !! "snapshot_id" = None ∧
            (Pipeline.cleanup (Step := Sample.steps) s state).1 !! "snapshot_id" = None).
  { intros s state Hs Hnone. by destruct s. }
  split;
    apply (Orchestrate_skip_snapshot (H := Sample.steps) "snapshot_id"
             Sample.cx11 eq_refl Hframe).
Defined.

(** C8 on a configuration without token, location and server type, in a
    world without [HCLOUD_TOKEN]. *)
Lemma Prepare_aggregates_errors_sample :
  let d := Sample.config "" "" "" "ubuntu-22.04" None "" "" false in
  out (Prepare Sample.world d ∅ [d])
  = Return None (Some (MultiError
      [errors_New "token is missing, make sure to configure your Hetzner Cloud token";
       errors_New "location is required";
       errors_New "server type is required"])).
Proof.
  intros d.
  apply (Prepare_aggregates_errors Sample.world d ∅ [d] d eq_refl
           (or_intror eq_refl)).
  discriminate.
Defined.

(** C9 on the scenario configuration, which leaves all four defaulted
    fields unset. *)
Lemma Prepare_defaults_populated_sample :
  let c' := cfg (Prepare Sample.world Sample.cx11 ∅ [Sample.cx11]) in
  Endpoint c' ≠ "" ∧ PollInterval c' ≠ 0%Z ∧ SnapshotName c' ≠ "" ∧
  ServerName c' ≠ "".
Proof.
  intros c'.
  assert (Hrender : forall def,
            Render Sample.world "packer-{{timestamp}}" = (def, None) ->
            def ≠ "").
  { intros def [= <-]. discriminate. }
  destruct (Prepare_defaults_populated Sample.world Sample.cx11 ∅ [Sample.cx11]
              ltac:(discriminate) Hrender eq_refl)
    as (He & Hp & Hs & Hn & _).
  repeat split; assumption.
Defined.

(** C10 on the scenario configuration: its token is in the secret filter
    after the call. *)
Lemma Prepare_registers_token_sample :
  "token-1" ∈ secrets (Prepare Sample.world Sample.cx11 ∅ [Sample.cx11]).
Proof.
  destruct (Prepare_registers_token Sample.world Sample.cx11 ∅ [Sample.cx11])
    as [Hok _].
  destruct (Hok eq_refl) as (d & Hdec & _ & _ & _ & Hin).
  injection Hdec as <-. exact Hin.
Defined.

(** * Further properties of [Prepare] *)

Section PrepareBehaviour.
Context {common_PackerConfig communicator_Config interpolate_Context : Type}.
Context {Raw : Type}.
Implicit Types c d : @Config common_PackerConfig communicator_Config interpolate_Context.
Implicit Types w : World common_PackerConfig communicator_Config interpolate_Context Raw.

Lemma image_errors_nil d :
  image_errors d = [] <->
  (Image d ≠ "" ∧ ImageFilter d = None) ∨
  (Image d = "" ∧ exists f, ImageFilter d = Some f ∧ WithSelector f ≠ []).
Proof.
  unfold image_errors.
  destruct (ImageFilter d) as [f |]; repeat case_decide; split;
    try done; try (intros [[? ?] | [? (f' & ? & ?)]]; simplify_eq; done).
  - intros _. right. split; [done |]. by exists f.
  - intros _. by left.
Qed.

Lemma user_data_errors_nil w d :
  user_data_errors w d = [] <->
  UserDataFile d = "" ∨ (UserData d = "" ∧ Stat w (UserDataFile d) = None).
Proof.
  unfold user_data_errors.
  repeat case_decide; try destruct (Stat w (UserDataFile d)); split;
    try done; try (intros [? | [? ?]]; done); intros _; auto.
Qed.

(** Nothing is reported exactly for a valid configuration. *)
Lemma reported_nil w es d : reported w es d = [] <-> valid w es d.
Proof.
  unfold reported, failed_checks, valid.
  rewrite !app_nil.
  assert (image_errors (set_HCloudToken (resolved_token w d) d) = image_errors d)
    as -> by done.
  assert (user_data_errors w (set_HCloudToken (resolved_token w d) d)
          = user_data_errors w d) as -> by done.
  rewrite image_errors_nil, user_data_errors_nil.
  unfold token_errors, location_errors, server_type_errors. simpl.
  repeat case_decide; intuition congruence.
Qed.

(** The defaults block writes five fields and no other. *)
Lemma defaults_frame w d :
  let d' := (defaults w d).1 in
  PackerConfig d' = PackerConfig d ∧ Comm d' = Comm d ∧ ctx d' = ctx d ∧
  ServerLabels d' = ServerLabels d ∧
  UpgradeServerType d' = UpgradeServerType d ∧
  SnapshotLabels d' = SnapshotLabels d ∧ SSHKeys d' = SSHKeys d ∧
  SSHKeysLabels d' = SSHKeysLabels d ∧ Networks d' = Networks d ∧
  PublicIPv4 d' = PublicIPv4 d ∧
  PublicIPv4Disabled d' = PublicIPv4Disabled d ∧
  PublicIPv6 d' = PublicIPv6 d ∧
  PublicIPv6Disabled d' = PublicIPv6Disabled d ∧
  Firewalls d' = Firewalls d ∧ Volumes d' = Volumes d ∧
  RescueMode d' = RescueMode d ∧ KeepServer d' = KeepServer d.
Proof.
  unfold defaults.
  destruct (Render w "packer-{{timestamp}}") as [def [e |]];
    repeat case_decide; simpl; repeat split.
Qed.

(** The receiver after a call whose decoding succeeded: the configuration
    after the defaults block, with the communicator prepared unless the
    defaults block panicked. *)
Lemma Prepare_cfg w c filter raws d :
  Decode w c raws = (d, None) ->
  let d' := (defaults w d).1 in
  cfg (Prepare w c filter raws) = d' ∨
  exists cm cx, cfg (Prepare w c filter raws) = set_Comm cm cx d'.
Proof.
  intros Hdec. unfold Prepare. rewrite Hdec.
  destruct (defaults w d) as [d' [e |]]; simpl; [by left |].
  destruct (Comm_Prepare w (Comm d') (ctx d')) as [[cm cx] es].
  right. exists cm, cx.
  by destruct (checks w es (set_Comm cm cx d')) as [[| e errors] |].
Qed.

(** [Prepare] never returns warnings and never takes a secret out of the
    filter; a failed decoding is returned as it is, with the filter
    untouched; after a successful decoding an error that is returned is a
    [MultiError] that holds at least one error. *)
Theorem Prepare_never w c filter raws :
  let r := Prepare w c filter raws in
  (forall warnings err, out r = Return warnings err -> warnings = None) ∧
  filter ⊆ secrets r ∧
  (forall e, (Decode w c raws).2 = Some e ->
     out r = Return None (Some e) ∧ secrets r = filter ∧
     cfg r = (Decode w c raws).1) ∧
  (forall err, (Decode w c raws).2 = None -> out r = Return None (Some err) ->
     exists e errors, err = MultiError (e :: errors)).
Proof.
  unfold Prepare.
  destruct (Decode w c raws) as [d [e |]]; simpl.
  { repeat split; try done; intros; by simplify_eq. }
  destruct (defaults w d) as [d' [e |]]; simpl.
  { repeat split; done. }
  destruct (Comm_Prepare w (Comm d') (ctx d')) as [[cm cx] es].
  destruct (checks w es (set_Comm cm cx d')) as [[| e errors] |]; simpl;
    unfold LogSecretFilter_Set; repeat split; try done; try set_solver;
    intros; simplify_eq; eauto.
Qed.

(** [Prepare] panics exactly when the decoding succeeded, no snapshot name
    is configured and the default one cannot be rendered; the panic carries
    the error of the rendering. *)
Theorem Prepare_panics_iff w c filter raws v :
  out (Prepare w c filter raws) = Panic v <->
  (Decode w c raws).2 = None ∧
  SnapshotName (Decode w c raws).1 = "" ∧
  (Render w "packer-{{timestamp}}").2 = Some v.
Proof.
  unfold Prepare.
  destruct (Decode w c raws) as [d [e |]]; simpl; [by split; [| intros []] |].
  destruct (defaults w d) as [d' p] eqn:Hdef.
  assert (Hp : p = (defaults w d).2) by (by rewrite Hdef).
  assert (Hpanic : p = Some v <->
            SnapshotName d = "" ∧ (Render w "packer-{{timestamp}}").2 = Some v).
  { rewrite Hp. unfold defaults.
    destruct (Render w "packer-{{timestamp}}") as [def [e |]];
      repeat case_decide; simpl; intuition congruence. }
  destruct p as [e |]; simpl.
  - split.
    + intros [= ->]. split; [done |]. by apply Hpanic.
    + intros (_ & Hs & Hr). f_equal.
      assert (Some e = Some v) as [= ->]; [| done].
      by apply Hpanic.
  - destruct (Comm_Prepare w (Comm d') (ctx d')) as [[cm cx] es].
    split.
    + by destruct (checks w es (set_Comm cm cx d')) as [[| e errors] |].
    + intros (_ & Hs & Hr).
      assert (None = Some v) by (by apply Hpanic). done.
Qed.

(** [Prepare] returns [nil, nil] exactly when the decoding succeeded, the
    default snapshot name is not needed or can be rendered, the communicator
    has nothing to report and every check passes. *)
Theorem Prepare_succeeds_iff w c filter raws :
  succeeds (Prepare w c filter raws) <->
  exists d, Decode w c raws = (d, None) ∧ renders w d ∧
    valid w (Comm_Prepare w (Comm (defaults w d).1) (ctx (defaults w d).1)).2 d.
Proof.
  split.
  - intros Hok.
    destruct (Prepare_succeeds_inv _ _ _ _ Hok) as (d & Hdec & Hren).
    exists d. split; [done |]. split; [done |].
    destruct (Prepare_reported w c filter raws d Hdec Hren)
      as (c' & es & <- & _ & _ & _ & _ & _ & _ & _ & Hrun).
    apply reported_nil.
    unfold succeeds in Hok. rewrite Hrun in Hok. by case_decide.
  - intros (d & Hdec & Hren & Hvalid).
    destruct (Prepare_reported w c filter raws d Hdec Hren)
      as (c' & es & <- & _ & _ & _ & _ & _ & _ & _ & Hrun).
    apply reported_nil in Hvalid.
    unfold succeeds. rewrite Hrun. by rewrite decide_True.
Qed.

(** What is configured explicitly is kept, whatever the environment holds
    and however the call ends: the token, the endpoint, the poll interval,
    the snapshot name and the server name. *)
Theorem Prepare_keeps_explicit w c filter raws d :
  Decode w c raws = (d, None) ->
  let c' := cfg (Prepare w c filter raws) in
  (HCloudToken d ≠ "" -> HCloudToken c' = HCloudToken d) ∧
  (Endpoint d ≠ "" -> Endpoint c' = Endpoint d) ∧
  (PollInterval d ≠ 0%Z -> PollInterval c' = PollInterval d) ∧
  (SnapshotName d ≠ "" -> SnapshotName c' = SnapshotName d) ∧
  (ServerName d ≠ "" -> ServerName c' = ServerName d).
Proof.
  intros Hdec c'.
  assert (Hfields : HCloudToken c' = HCloudToken (defaults w d).1 ∧
                    Endpoint c' = Endpoint (defaults w d).1 ∧
                    PollInterval c' = PollInterval (defaults w d).1 ∧
                    SnapshotName c' = SnapshotName (defaults w d).1 ∧
                    ServerName c' = ServerName (defaults w d).1).
  { destruct (Prepare_cfg w c filter raws d Hdec) as [Hc | (cm & cx & Hc)];
      unfold c'; rewrite Hc; done. }
  destruct Hfields as (-> & -> & -> & -> & ->).
  unfold defaults.
  destruct (Render w "packer-{{timestamp}}") as [def [e |]];
    repeat case_decide; simpl; repeat split; try done; congruence.
Qed.

(** [Prepare] writes the five defaulted fields and lets the communicator
    prepare itself; every other setting of the receiver is the decoded one,
    however the call ends. *)
Theorem Prepare_frame w c filter raws d :
  Decode w c raws = (d, None) ->
  let c' := cfg (Prepare w c filter raws) in
  PackerConfig c' = PackerConfig d ∧ Location c' = Location d ∧
  ServerType c' = ServerType d ∧ ServerLabels c' = ServerLabels d ∧
  UpgradeServerType c' = UpgradeServerType d ∧ Image c' = Image d ∧
  ImageFilter c' = ImageFilter d ∧ SnapshotLabels c' = SnapshotLabels d ∧
  UserData c' = UserData d ∧ UserDataFile c' = UserDataFile d ∧
  SSHKeys c' = SSHKeys d ∧ SSHKeysLabels c' = SSHKeysLabels d ∧
  Networks c' = Networks d ∧ PublicIPv4 c' = PublicIPv4 d ∧
  PublicIPv4Disabled c' = PublicIPv4Disabled d ∧
  PublicIPv6 c' = PublicIPv6 d ∧
  PublicIPv6Disabled c' = PublicIPv6Disabled d ∧
  Firewalls c' = Firewalls d ∧ Volumes c' = Volumes d ∧
  RescueMode c' = RescueMode d ∧ KeepServer c' = KeepServer d ∧
  SkipSnapshot c' = SkipSnapshot d.
Proof.
  intros Hdec c'.
  destruct (defaults_checked_fields w d)
    as (_ & Hl & Hs & Hi & Hf & Hu & Hp & Hk).
  destruct (defaults_frame w d)
    as (H1 & _ & _ & H4 & H5 & H6 & H7 & H8 & H9 & H10 & H11 & H12 & H13
        & H14 & H15 & H16 & H17).
  destruct (Prepare_cfg w c filter raws d Hdec) as [Hc | (cm & cx & Hc)];
    unfold c'; rewrite Hc; simpl; repeat split; assumption.
Qed.

(** The defaults are in the receiver before the checks run: after a call
    that did not panic, also one that returns a validation error, the token
    is the resolved one, the endpoint is the configured one, else
    [HCLOUD_ENDPOINT], else the default of hcloud-go, the poll interval is
    not zero and the server name is not empty. *)
Theorem Prepare_defaults_before_checks w c filter raws d :
  Decode w c raws = (d, None) ->
  renders w d ->
  let c' := cfg (Prepare w c filter raws) in
  HCloudToken c' = resolved_token w d ∧
  Endpoint c' =
    (if decide (Endpoint d = "")
     then if decide (Getenv w "HCLOUD_ENDPOINT" = "")
          then hcloud_Endpoint w else Getenv w "HCLOUD_ENDPOINT"
     else Endpoint d) ∧
  PollInterval c' ≠ 0%Z ∧
  ServerName c' ≠ "".
Proof.
  intros Hdec Hren c'.
  destruct (Prepare_reported w c filter raws d Hdec Hren)
    as (c0 & es & _ & Ht & He & Hp & _ & Hn & _ & _ & Hrun).
  assert (Hcfg : c' = c0) by (unfold c'; rewrite Hrun; by case_decide).
  rewrite Hcfg, Ht, He, Hp, Hn.
  destruct (defaults_defaulted_fields w d) as (-> & -> & Hnames).
  apply defaults_renders in Hren. destruct (Hnames Hren) as [_ ->].
  repeat split.
  - destruct (decide (PollInterval d = 0%Z)) as [Hz | Hz]; [lia | exact Hz].
  - destruct (decide (ServerName d = "")); [discriminate | done].
Qed.

(** [Prepare] does not check the poll interval: a valid configuration with
    a negative poll interval is accepted and keeps it. *)
Theorem Prepare_accepts_negative_poll_interval w c filter raws d :
  Decode w c raws = (d, None) ->
  renders w d ->
  valid w (Comm_Prepare w (Comm (defaults w d).1) (ctx (defaults w d).1)).2 d ->
  (PollInterval d < 0)%Z ->
  succeeds (Prepare w c filter raws) ∧
  (PollInterval (cfg (Prepare w c filter raws)) < 0)%Z.
Proof.
  intros Hdec Hren Hvalid Hneg.
  destruct (Prepare_reported w c filter raws d Hdec Hren)
    as (c' & es & <- & _ & _ & Hp & _ & _ & _ & _ & Hrun).
  apply reported_nil in Hvalid.
  unfold succeeds. rewrite Hrun, decide_True by done. simpl.
  split; [done |].
  destruct (defaults_defaulted_fields w d) as (_ & Hpoll & _).
  rewrite Hp, Hpoll, decide_False by lia. done.
Qed.

(** A validation error holds at least one error and at most the errors of
    the communicator and five more: the image block and the user-data block
    report one message each at most. *)
Theorem Prepare_error_count w c filter raws d errors :
  Decode w c raws = (d, None) ->
  out (Prepare w c filter raws) = Return None (Some (MultiError errors)) ->
  (1 ≤ length errors
   ≤ length (Comm_Prepare w (Comm (defaults w d).1) (ctx (defaults w d).1)).2 + 5)%nat
  ∧ (length (image_errors d) ≤ 1)%nat
  ∧ (length (user_data_errors w d) ≤ 1)%nat.
Proof.
  intros Hdec Hout.
  assert (Himg : (length (image_errors d) ≤ 1)%nat).
  { unfold image_errors.
    destruct (ImageFilter d); repeat case_decide; simpl; lia. }
  assert (Hud : (length (user_data_errors w d) ≤ 1)%nat).
  { unfold user_data_errors.
    repeat case_decide; try destruct (Stat w (UserDataFile d)); simpl; lia. }
  split; [| done].
  assert (Hren : renders w d).
  { apply defaults_renders.
    destruct (defaults w d) as [d' [e |]] eqn:Hdef; [| done].
    unfold Prepare in Hout. rewrite Hdec, Hdef in Hout. done. }
  destruct (Prepare_reported w c filter raws d Hdec Hren)
    as (c' & es & <- & _ & _ & _ & _ & _ & _ & _ & Hrun).
  rewrite Hrun in Hout. case_decide as Hnil; [done |].
  simpl in Hout. injection Hout as <-.
  split; [destruct (reported _ _ _); [done | simpl; lia] |].
  unfold reported, failed_checks. rewrite !length_app.
  assert (length (token_errors (set_HCloudToken (resolved_token w d) d)) ≤ 1)%nat
    by (unfold token_errors; case_decide; simpl; lia).
  assert (length (location_errors (set_HCloudToken (resolved_token w d) d)) ≤ 1)%nat
    by (unfold location_errors; case_decide; simpl; lia).
  assert (length (server_type_errors (set_HCloudToken (resolved_token w d) d)) ≤ 1)%nat
    by (unfold server_type_errors; case_decide; simpl; lia).
  change (image_errors (set_HCloudToken (resolved_token w d) d))
    with (image_errors d).
  change (user_data_errors w (set_HCloudToken (resolved_token w d) d))
    with (user_data_errors w d).
  lia.
Qed.

(** The file behind [user_data_file] is looked up only when
    [user_data_file] is set and [user_data] is not: otherwise the call is
    the same whatever [os.Stat] would answer. *)
Theorem Prepare_stat_not_consulted w c filter raws d stat :
  Decode w c raws = (d, None) ->
  UserData d ≠ "" ∨ UserDataFile d = "" ->
  Prepare (with_Stat stat w) c filter raws = Prepare w c filter raws.
Proof.
  intros Hdec Hno.
  assert (Hdefaults : defaults (with_Stat stat w) d = defaults w d) by done.
  unfold Prepare. change (Decode (with_Stat stat w)) with (Decode w).
  rewrite Hdec, Hdefaults.
  destruct (defaults w d) as [d' [e |]] eqn:Hdef; [done |].
  change (Comm_Prepare (with_Stat stat w)) with (Comm_Prepare w).
  destruct (Comm_Prepare w (Comm d') (ctx d')) as [[cm cx] es].
  assert (Hsame : checks (with_Stat stat w) es (set_Comm cm cx d')
                  = checks w es (set_Comm cm cx d')).
  { unfold checks. generalize (check_image (set_Comm cm cx d')
      (check_server_type (set_Comm cm cx d')
         (check_location (set_Comm cm cx d')
            (check_token (set_Comm cm cx d') (check_comm es None))))).
    intros errs. unfold check_user_data. simpl.
    destruct (defaults_checked_fields w d) as (_ & _ & _ & _ & _ & Hu & Hp & _).
    rewrite Hdef in Hu, Hp. simpl in Hu, Hp. rewrite Hu, Hp.
    repeat case_decide; try done; intuition congruence. }
  by rewrite Hsame.
Qed.

End PrepareBehaviour.

(** * Further properties of [getServerIP] *)

(** [getServerIP] panics exactly when the key does not hold a string: when
    it is absent, and also when it holds a value of another type. *)
Theorem getServerIP_panics_iff (StateServerIP : string)
    (state : gmap string any) :
  (exists v, getServerIP StateServerIP state = Panic v) <->
  ¬ exists ip, Get state StateServerIP = Some (any_string ip).
Proof.
  unfold getServerIP.
  destruct (Get state StateServerIP) as [[s | b | n | e] |]; split;
    try (intros _; by eexists); try (by intros [v ?]);
    try (intros _ [ip ?]; done).
  intros Hnot. destruct Hnot. by exists s.
Qed.

(** Putting the address under the key makes [getServerIP] return it,
    whatever the state held before; putting a value under another key does
    not change what [getServerIP] does; putting a value that is not a string
    under the key makes it panic. *)
Theorem getServerIP_after_Put (StateServerIP : string)
    (state : gmap string any) :
  (forall ip, getServerIP StateServerIP (Put StateServerIP (any_string ip) state)
              = Return ip None) ∧
  (forall k v, k ≠ StateServerIP ->
     getServerIP StateServerIP (Put k v state)
     = getServerIP StateServerIP state) ∧
  (forall v, (forall ip, v ≠ any_string ip) ->
     exists p, getServerIP StateServerIP (Put StateServerIP v state) = Panic p).
Proof.
  unfold getServerIP, Get, Put. split; [| split].
  - intros ip. by rewrite lookup_insert_eq.
  - intros k v Hk. by rewrite lookup_insert_ne.
  - intros v Hv. rewrite lookup_insert_eq.
    destruct v as [s | b | n | e]; try by eexists.
    by destruct (Hv s).
Qed.

(** * Properties of the generated HCL2 specification *)

(** A key of a map built from a list of entries is the key of an entry. *)
Lemma lookup_entries (entries : list (string * Spec)) k s :
  (list_to_map entries : gmap string Spec) !! k = Some s -> (k, s) ∈ entries.
Proof. apply elem_of_list_to_map_2. Qed.

(** Every entry of both specifications is named after its key, and no
    attribute is required: the specification of [FlatConfig] holds optional
    attributes and the one block [image_filter], whose nested specification
    is that of [FlatimageFilter]; the latter holds optional attributes
    only. *)
Theorem HCL2Spec_entries_named k s :
  (FlatConfig_HCL2Spec !! k = Some s ->
   (k = "image_filter" ∧
    s = BlockSpec k (ObjectSpec FlatimageFilter_HCL2Spec)) ∨
   (exists t, s = AttrSpec k t false)) ∧
  (FlatimageFilter_HCL2Spec !! k = Some s ->
   exists t, s = AttrSpec k t false).
Proof.
  split.
  - intros Hin. apply lookup_entries in Hin. revert k s Hin.
    assert (Hall : Forall (fun e : string * Spec =>
              (e.1 = "image_filter" ∧
               e.2 = BlockSpec e.1 (ObjectSpec FlatimageFilter_HCL2Spec)) ∨
              (exists t, e.2 = AttrSpec e.1 t false))
              FlatConfig_HCL2Spec_entries).
    { unfold FlatConfig_HCL2Spec_entries.
      repeat (constructor;
              [first [right; eexists; reflexivity | left; split; reflexivity] |]).
      constructor. }
    intros k s Hin. rewrite Forall_forall in Hall. exact (Hall (k, s) Hin).
  - intros Hin. apply lookup_entries in Hin. revert k s Hin.
    assert (Hall : Forall (fun e : string * Spec =>
              exists t, e.2 = AttrSpec e.1 t false)
              FlatimageFilter_HCL2Spec_entries).
    { unfold FlatimageFilter_HCL2Spec_entries.
      repeat (constructor; [eexists; reflexivity |]). constructor. }
    intros k s Hin. rewrite Forall_forall in Hall. exact (Hall (k, s) Hin).
Qed.

(** The specification and the flat structure agree: every field of
    [FlatConfig] has, under its [mapstructure] tag, the entry for its type,
    every key of the specification is the tag of a field, and no two fields
    share a tag; the same holds of [FlatimageFilter]. *)
Theorem HCL2Spec_matches_fields :
  (forall f, f ∈ FlatConfig_fields ->
     FlatConfig_HCL2Spec !! mapstructure f
     = Some (entry_of FlatimageFilter_HCL2Spec f)) ∧
  (forall k, is_Some (FlatConfig_HCL2Spec !! k) ->
     exists f, f ∈ FlatConfig_fields ∧ mapstructure f = k) ∧
  NoDup (mapstructure <$> FlatConfig_fields) ∧
  (forall f, f ∈ FlatimageFilter_fields ->
     FlatimageFilter_HCL2Spec !! mapstructure f = Some (entry_of ∅ f)) ∧
  (forall k, is_Some (FlatimageFilter_HCL2Spec !! k) ->
     exists f, f ∈ FlatimageFilter_fields ∧ mapstructure f = k).
Proof.
  assert (Hkeys : FlatConfig_HCL2Spec_entries.*1
                  = mapstructure <$> FlatConfig_fields) by reflexivity.
  assert (Hkeys' : FlatimageFilter_HCL2Spec_entries.*1
                   = mapstructure <$> FlatimageFilter_fields) by reflexivity.
  split; [| split; [| split; [| split]]].
  - apply Forall_forall. unfold FlatConfig_fields.
    repeat (constructor; [vm_compute; reflexivity |]). constructor.
  - intros k [s Hs]. apply lookup_entries in Hs.
    assert (Hk : k ∈ FlatConfig_HCL2Spec_entries.*1).
    { apply list_elem_of_fmap. by exists (k, s). }
    rewrite Hkeys in Hk. apply list_elem_of_fmap in Hk as (f & -> & Hf).
    by exists f.
  - apply (bool_decide_unpack (NoDup (mapstructure <$> FlatConfig_fields))).
    vm_compute. exact I.
  - apply Forall_forall. unfold FlatimageFilter_fields.
    repeat (constructor; [vm_compute; reflexivity |]). constructor.
  - intros k [s Hs]. apply lookup_entries in Hs.
    assert (Hk : k ∈ FlatimageFilter_HCL2Spec_entries.*1).
    { apply list_elem_of_fmap. by exists (k, s). }
    rewrite Hkeys' in Hk. apply list_elem_of_fmap in Hk as (f & -> & Hf).
    by exists f.
Qed.

(** Every setting of [Config] has an entry in the specification under its
    [mapstructure] tag, except [volumes], which has none; both settings of
    [imageFilter] have an entry in the nested specification. *)
Theorem HCL2Spec_covers_Config k :
  (k ∈ Config_mapstructure ->
   (is_Some (FlatConfig_HCL2Spec !! k) <-> k ≠ "volumes")) ∧
  (k ∈ imageFilter_mapstructure -> is_Some (FlatimageFilter_HCL2Spec !! k)).
Proof.
  split.
  - revert k. apply Forall_forall. unfold Config_mapstructure.
    repeat (constructor;
            [first [ split; [intros _; discriminate
                            | intros _; vm_compute; eexists; reflexivity]
                   | split; [intros [x Hx]; vm_compute in Hx; discriminate
                            | intros Hne; by destruct Hne] ] |]).
    constructor.
  - revert k. apply Forall_forall. unfold imageFilter_mapstructure.
    repeat (constructor; [vm_compute; eexists; reflexivity |]). constructor.
Qed.

(** * The further properties on sample runs *)

(** A failed decoding is returned as it is. *)
Lemma Prepare_never_sample :
  out (Prepare Sample2.broken_world Sample.cx11 ∅ [])
  = Return None (Some (errors_New "unknown configuration key")).
Proof.
  destruct (Prepare_never Sample2.broken_world Sample.cx11 ∅ [])
    as (_ & _ & Hdec & _).
  apply (Hdec (errors_New "unknown configuration key") eq_refl).
Defined.

(** Without a snapshot name, in a world that cannot render the template,
    the call panics with the error of the rendering. *)
Lemma Prepare_panics_sample :
  out (Prepare Sample2.env_world Sample.cx11 ∅ [Sample.cx11])
  = Panic (errors_New "template: bad function").
Proof.
  apply (Prepare_panics_iff Sample2.env_world Sample.cx11 ∅ [Sample.cx11]).
  repeat split.
Defined.

(** The scenario configuration passes. *)
Lemma Prepare_succeeds_sample :
  succeeds (Prepare Sample.world Sample.cx11 ∅ [Sample.cx11]).
Proof.
  apply (Prepare_succeeds_iff Sample.world Sample.cx11 ∅ [Sample.cx11]).
  exists Sample.cx11. split; [reflexivity |]. split; [by right |].
  unfold valid. repeat split; try discriminate.
  - left. split; [discriminate | reflexivity].
  - by left.
Defined.

(** Explicit settings win over both environment variables. *)
Lemma Prepare_keeps_explicit_sample :
  let c' := cfg (Prepare Sample2.env_world Sample2.explicit ∅ [Sample2.explicit]) in
  HCloudToken c' = "token-1" ∧ Endpoint c' = "https://hcloud.test/v1" ∧
  PollInterval c' = (-1)%Z ∧ SnapshotName c' = "base-image" ∧
  ServerName c' = "builder-1".
Proof.
  intros c'.
  destruct (Prepare_keeps_explicit Sample2.env_world Sample2.explicit ∅
              [Sample2.explicit] Sample2.explicit eq_refl)
    as (Ht & He & Hp & Hs & Hn).
  split; [apply Ht; discriminate |].
  split; [apply He; discriminate |].
  split; [apply Hp; discriminate |].
  split; [apply Hs; discriminate | apply Hn; discriminate].
Defined.

(** The settings of the scenario configuration are those of the receiver
    after the call. *)
Lemma Prepare_frame_sample :
  let c' := cfg (Prepare Sample.world Sample.cx11 ∅ [Sample.cx11]) in
  Location c' = "nbg1" ∧ Image c' = "ubuntu-22.04" ∧ SkipSnapshot c' = true.
Proof.
  intros c'.
  destruct (Prepare_frame Sample.world Sample.cx11 ∅ [Sample.cx11]
              Sample.cx11 eq_refl)
    as (_ & Hl & _ & _ & _ & Hi & _ & _ & _ & _ & _ & _ & _ & _ & _ & _ & _
        & _ & _ & _ & _ & Hk).
  split; [exact Hl | split; [exact Hi | exact Hk]].
Defined.

(** A configuration that fails three checks still gets its defaults. *)
Lemma Prepare_defaults_before_checks_sample :
  let d := Sample.config "" "" "" "ubuntu-22.04" None "" "" false in
  let r := Prepare Sample.world d ∅ [d] in
  ¬ succeeds r ∧ Endpoint (cfg r) = "https://api.hetzner.cloud/v1" ∧
  PollInterval (cfg r) ≠ 0%Z ∧ ServerName (cfg r) ≠ "".
Proof.
  intros d r.
  destruct (Prepare_defaults_before_checks Sample.world d ∅ [d] d eq_refl
              (or_intror eq_refl)) as (_ & He & Hp & Hn).
  split; [discriminate |]. split; [exact He |]. by split.
Defined.

(** The explicit configuration, with its poll interval of -1, passes. *)
Lemma Prepare_accepts_negative_poll_interval_sample :
  (PollInterval Sample2.explicit < 0)%Z ∧
  succeeds (Prepare Sample.world Sample2.explicit ∅ [Sample2.explicit]) ∧
  (PollInterval (cfg (Prepare Sample.world Sample2.explicit ∅
                        [Sample2.explicit])) < 0)%Z.
Proof.
  split; [reflexivity |].
  apply (Prepare_accepts_negative_poll_interval Sample.world Sample2.explicit
           ∅ [Sample2.explicit] Sample2.explicit eq_refl).
  - by left.
  - unfold valid. repeat split; try discriminate.
    + left. split; [discriminate | reflexivity].
    + by left.
  - reflexivity.
Defined.

(** Three failed checks and a silent communicator: between one and five
    errors. *)
Lemma Prepare_error_count_sample :
  let d := Sample.config "" "" "" "ubuntu-22.04" None "" "" false in
  let errors :=
    [errors_New "token is missing, make sure to configure your Hetzner Cloud token";
     errors_New "location is required";
     errors_New "server type is required"] in
  out (Prepare Sample.world d ∅ [d]) = Return None (Some (MultiError errors)) ∧
  (1 ≤ length errors ≤ 5)%nat.
Proof.
  intros d errors. split; [reflexivity |].
  apply (Prepare_error_count Sample.world d ∅ [d] d errors eq_refl eq_refl).
Defined.

(** With both user-data settings the answer of [os.Stat] does not matter. *)
Lemma Prepare_stat_not_consulted_sample :
  let d := Sample.config "token-1" "nbg1" "cx11" "ubuntu-22.04" None
             "#cloud-config" "/nowhere.yml" false in
  Prepare (with_Stat (fun _ => None) Sample.world) d ∅ [d]
  = Prepare Sample.world d ∅ [d].
Proof.
  intros d.
  apply (Prepare_stat_not_consulted Sample.world d ∅ [d] d (fun _ => None)
           eq_refl).
  left. discriminate.
Defined.

(** A state that holds a number under the key. *)
Lemma getServerIP_panics_sample :
  exists v, getServerIP "server_ip" (Put "server_ip" (any_int 42) ∅) = Panic v.
Proof.
  apply (getServerIP_panics_iff "server_ip" (Put "server_ip" (any_int 42) ∅)).
  intros [ip Hip]. unfold Get, Put in Hip.
  rewrite lookup_insert_eq in Hip. discriminate Hip.
Defined.

(** The address survives the entry of another step. *)
Lemma getServerIP_after_Put_sample :
  getServerIP "server_ip"
    (Put "server_id" (any_int 42) (Put "server_ip" (any_string "10.0.0.2") ∅))
  = Return "10.0.0.2" None.
Proof.
  destruct (getServerIP_after_Put "server_ip"
              (Put "server_ip" (any_string "10.0.0.2") ∅)) as (_ & Hother & _).
  rewrite (Hother "server_id" (any_int 42)) by discriminate.
  apply (getServerIP_after_Put "server_ip" ∅).
Defined.

(** The entry of [token]. *)
Lemma HCL2Spec_entries_named_sample :
  exists t, AttrSpec "token" cty_String false = AttrSpec "token" t false.
Proof.
  destruct (HCL2Spec_entries_named "token" (AttrSpec "token" cty_String false))
    as [Hflat _].
  destruct (Hflat eq_refl) as [[Hk _] | Hattr]; [discriminate Hk | exact Hattr].
Defined.

(** [volumes] is a setting without an entry, [token] one with an entry. *)
Lemma HCL2Spec_covers_Config_sample :
  FlatConfig_HCL2Spec !! "volumes" = None ∧
  is_Some (FlatConfig_HCL2Spec !! "token").
Proof.
  split.
  - destruct (HCL2Spec_covers_Config "volumes") as [Hcfg _].
    destruct (FlatConfig_HCL2Spec !! "volumes") as [s |] eqn:Hs; [| done].
    assert (Hin : "volumes" ∈ Config_mapstructure).
    { unfold Config_mapstructure. rewrite !elem_of_cons. tauto. }
    apply Hcfg in Hin. destruct Hin as [Hne _].
    exfalso. apply Hne; [by exists s | done].
  - destruct (HCL2Spec_covers_Config "token") as [Hcfg _].
    apply Hcfg; [unfold Config_mapstructure; by left | discriminate].
Defined.

(** * The poll interval of the polling Steps *)

Section PollIntervalShared.
Context {common_PackerConfig communicator_Config interpolate_Context : Type}.
Context {Raw : Type}.
Implicit Types c d : @Config common_PackerConfig communicator_Config interpolate_Context.
Implicit Types w : World common_PackerConfig communicator_Config interpolate_Context Raw.



End PollIntervalShared.

